(** * Flash-loan arbitrage bot: a shallow embedding of [src/flashLoanBot.js]

    The script loads three "logic" classes from the Protocolink SDK (falling
    back to [MockLogic]), asks them for three chained quotations, subtracts
    the loan from the final amount and prints set-up instructions when the
    difference is positive.

    Everything the script can observe or cause is kept: the values bound at
    module level, the quotation calls with their arguments and answers, the
    console lines and the exceptions, a thrown [null] or [undefined]
    included, since both [catch] blocks read the [.message] of what they
    catch.  BigNumber values are unbounded integers ([Z]); a BigNumberish
    decimal string is identified with the integer it denotes. *)

From Stdlib Require Import ZArith String Ascii List Bool Lia DecimalString.
Import ListNotations.
Local Open Scope string_scope.
Local Open Scope Z_scope.

(** ** JavaScript errors and completions *)

(** A thrown value other than [null] and [undefined].  The script only
    ever reads its [.message], and only to hand it to [console.error]:
    [message] is the text written for it, the string itself for an [Error]
    object. *)
Record Error : Type := mkError { message : string }.

(** The two values that have no properties. *)
Inductive Nullish : Type :=
| Null
| Undefined.

(** What a [throw] can throw and a promise can be rejected with. *)
Inductive Thrown : Type :=
| Raised (e : Error)
| RaisedNullish (k : Nullish).

(** The outcome of evaluating a piece of code (or of awaiting a promise):
    [inl x] is a throw (a rejection), [inr v] a normal completion. *)
Definition Completion (A : Type) : Type := (Thrown + A)%type.

(** The [TypeError] of reading [.message] on [null] or [undefined]. *)
Definition cannotReadMessage (k : Nullish) : Error :=
  mkError ("Cannot read properties of "
           ++ match k with
              | Null => "null"
              | Undefined => "undefined"
              end
           ++ " (reading 'message')").

(** [e.message] for a caught [e]. *)
Definition readMessage (e : Thrown) : Completion string :=
  match e with
  | Raised err => inr (message err)
  | RaisedNullish k => inl (Raised (cannotReadMessage k))
  end.

(** ** The part of ethers v5 that the script calls

    [ethers] is a dependency, not code of the repository; the three utility
    functions are written after the behaviour of ethers v5 ([formatFixed],
    [parseFixed]) on integers and on decimal literals. *)
Module Ethers.

(** [BigNumber.prototype.toString] on a non-negative value. *)
Definition toString (v : Z) : string :=
  NilZero.string_of_uint (N.to_uint (Z.to_N v)).

Definition getMultiplier (decimals : nat) : Z := 10 ^ Z.of_nat decimals.

Fixpoint zeros (n : nat) : string :=
  match n with
  | O => ""
  | S k => String "0" (zeros k)
  end.

(** [while (s.length < n) s = "0" + s]. *)
Definition padStart (n : nat) (s : string) : string :=
  zeros (n - String.length s) ++ s.

(** [while (s.length < n) s += "0"]. *)
Definition padEnd (n : nat) (s : string) : string :=
  s ++ zeros (n - String.length s).

(** Removes the zeros at the end of [s]; the empty string when [s] holds
    nothing else. *)
Fixpoint stripTrailingZeros (s : string) : string :=
  match s with
  | "" => ""
  | String c r =>
      let r' := stripTrailingZeros r in
      if (Ascii.eqb c "0" && String.eqb r' "")%bool then "" else String c r'
  end.

(** [ethers.utils.formatUnits(value, decimals)]:
    the fraction is [value mod 10^decimals] padded to [decimals] digits
    and cut after its last non-zero digit (a lone 0 when there is none),
    the whole part is
    [value div 10^decimals], on the absolute value, with the sign put
    back in front. *)
Definition formatUnits (value : Z) (decimals : nat) : string :=
  let multiplier := getMultiplier decimals in
  let negative := value <? 0 in
  let v := if negative then value * -1 else value in
  let fraction := padStart decimals (toString (v mod multiplier)) in
  let fraction :=
    match stripTrailingZeros fraction with
    | "" => "0"
    | f => f
    end in
  let whole := toString (v / multiplier) in
  let s := match decimals with
           | O => whole
           | _ => whole ++ "." ++ fraction
           end in
  if negative then "-" ++ s else s.

(** [value.split(".")] for at most one dot: what is before the first dot,
    and what is after it when there is one. *)
Fixpoint splitDot (s : string) : string * option string :=
  match s with
  | "" => ("", None)
  | String c r =>
      if Ascii.eqb c "." then ("", Some r)
      else let (w, f) := splitDot r in (String c w, f)
  end.

Definition digits (s : string) : option Z :=
  match NilEmpty.uint_of_string s with
  | Some u => Some (Z.of_uint u)
  | None => None
  end.

Definition invalidDecimal : Error := mkError "invalid decimal value".
Definition underflow : Error := mkError "fractional component exceeds decimals".

(** [ethers.utils.parseUnits(value, decimals)] on a string: an optional
    sign, a whole part and an optional fraction of at most [decimals]
    significant digits; anything else throws. *)
Definition parseUnits (value : string) (decimals : nat) : Completion Z :=
  let multiplier := getMultiplier decimals in
  let '(negative, value) :=
    match value with
    | String "-" r => (true, r)
    | _ => (false, value)
    end in
  match value with
  | "" | "." => inl (Raised invalidDecimal)
  | _ =>
      let (whole, fraction) := splitDot value in
      let whole := match whole with "" => "0" | _ => whole end in
      let fraction := match fraction with
                      | None | Some "" => "0"
                      | Some f => f
                      end in
      let fraction := stripTrailingZeros fraction in
      if (decimals <? String.length fraction)%nat then inl (Raised underflow)
      else
        let fraction := match fraction with "" => "0" | _ => fraction end in
        let fraction := padEnd decimals fraction in
        match digits whole, digits fraction with
        | Some wholeValue, Some fractionValue =>
            let wei := wholeValue * multiplier + fractionValue in
            inr (if negative then wei * -1 else wei)
        | _, _ => inl (Raised invalidDecimal)
        end
  end.

(** [ethers.utils.parseEther(s)] is [parseUnits(s, 18)]. *)
Definition parseEther (ether : string) : Completion Z := parseUnits ether 18.

End Ethers.

(** ** Data of the script *)

(** The token descriptors of the [TOKENS] table. *)
Record Token : Type := mkToken {
  chainId : Z;
  address : string;
  decimals : nat;
  symbol : string;
  name : string
}.

(** The JSON-RPC provider handed to every logic constructor; the script
    never looks inside it. *)
Record Provider : Type := mkProvider { url : string }.

(** Argument of [getFlashLoanQuotation]. *)
Record FlashLoanParams : Type := mkFlashLoanParams {
  token : Token;
  fl_amount : Z
}.

(** Answer of [getFlashLoanQuotation]: the script reads [.amount]. *)
Record FlashLoanQuote : Type := mkFlashLoanQuote { amount : Z }.

(** Argument of [getSwapQuotation]; swap 1 carries [pairAddress], swap 2
    carries [poolAddress]. *)
Record SwapParams : Type := mkSwapParams {
  inputToken : Token;
  outputToken : Token;
  sw_amount : Z;
  pairAddress : option string;
  poolAddress : option string
}.

(** Answer of [getSwapQuotation]: the script reads [.outputAmount]. *)
Record SwapQuote : Type := mkSwapQuote { outputAmount : Z }.

(** An instance of a logic class: its two asynchronous methods, each
    resolving to a quotation or rejecting.  A method the instance lacks is
    the function that always rejects with a [TypeError]. *)
Record LogicInstance : Type := mkLogic {
  getFlashLoanQuotation : FlashLoanParams -> Completion FlashLoanQuote;
  getSwapQuotation : SwapParams -> Completion SwapQuote
}.

(** A logic class: [new X(chainId, provider)] yields an instance or throws. *)
Definition LogicClass : Type := Z -> Provider -> Completion LogicInstance.

(** The JavaScript values the script distinguishes: falsy ones (stood for
    by [undefined]), functions, and other objects. *)
#[local] Unset Elimination Schemes.
Inductive JsVal : Type :=
| JUndefined
| JObject (props : list (string * JsVal))
| JFunction (c : LogicClass).
#[local] Set Elimination Schemes.

(** [typeof v === 'function']. *)
Definition isFunction (v : JsVal) : bool :=
  match v with
  | JFunction _ => true
  | _ => false
  end.

(** The truth value [||] tests. *)
Definition truthy (v : JsVal) : bool :=
  match v with
  | JUndefined => false
  | _ => true
  end.

(** The three module-level bindings a quotation can be asked through. *)
Inductive LogicName : Type :=
| BalancerV2FlashLoan
| SushiswapV2Swap
| UniswapV3Swap.

(** What a run does to the outside: console lines, and quotation calls with
    the argument passed and the answer received. *)
Inductive Event : Type :=
| ConsoleLog (line : string)
| ConsoleError (line : string)
| FlashLoanQuotation (via : LogicName) (params : FlashLoanParams)
    (answer : Completion FlashLoanQuote)
| SwapQuotation (via : LogicName) (params : SwapParams)
    (answer : Completion SwapQuote).

(** ** Computations: a trace of events and a completion *)

Definition M (A : Type) : Type := (list Event * Completion A)%type.

Definition ret {A} (a : A) : M A := ([], inr a).

Definition bind {A B} (m : M A) (f : A -> M B) : M B :=
  match m with
  | (t, inl e) => (t, inl e)
  | (t, inr a) => let (t', r) := f a in ((t ++ t')%list, r)
  end.

Definition throw {A} (e : Thrown) : M A := ([], inl e).

(** [try { body } catch (error) { handler }]. *)
Definition try_catch {A} (body : M A) (handler : Thrown -> M A) : M A :=
  match body with
  | (t, inl e) => let (t', r) := handler e in ((t ++ t')%list, r)
  | (t, inr a) => (t, inr a)
  end.

(** The completion of a synchronous call or of an awaited promise. *)
Definition lift {A} (c : Completion A) : M A := ([], c).

Definition console_log (line : string) : M unit := ([ConsoleLog line], inr tt).
Definition console_error (line : string) : M unit := ([ConsoleError line], inr tt).

Declare Scope js_scope.
Delimit Scope js_scope with js.
Notation "x <- m ;; k" := (bind m (fun x => k))
  (at level 61, m at next level, right associativity) : js_scope.
Notation "m ;; k" := (bind m (fun _ => k))
  (at level 61, right associativity) : js_scope.
Local Open Scope js_scope.

(** [await logic.getFlashLoanQuotation(params)]. *)
Definition awaitFlashLoanQuotation (via : LogicName) (logic : LogicInstance)
    (params : FlashLoanParams) : M FlashLoanQuote :=
  let answer := getFlashLoanQuotation logic params in
  ([FlashLoanQuotation via params answer], answer).

(** [await logic.getSwapQuotation(params)]. *)
Definition awaitSwapQuotation (via : LogicName) (logic : LogicInstance)
    (params : SwapParams) : M SwapQuote :=
  let answer := getSwapQuotation logic params in
  ([SwapQuotation via params answer], answer).

(** ** Loading the Protocolink logic classes (lines 4-38) *)

(** What [new MockLogic(chainId, provider)] builds: the flash-loan quotation
    hands the requested amount back; the swap quotation looks at the symbol
    of the input token only. *)
Definition mockInstance : LogicInstance := {|
  getFlashLoanQuotation := fun params =>
    inr {| amount := fl_amount params |};
  getSwapQuotation := fun params =>
    if String.eqb (symbol (inputToken params)) "USDC"
    then match Ethers.parseEther "0.04" with  (* 100 USDC -> 0.04 ETH *)
         | inr v => inr {| outputAmount := v |}
         | inl e => inl e
         end
    else match Ethers.parseUnits "104" 6 with (* 0.04 ETH -> 104 USDC *)
         | inr v => inr {| outputAmount := v |}
         | inl e => inl e
         end
|}.

(** [function MockLogic(chainId, provider)]: both arguments are ignored. *)
Definition MockLogic : LogicClass := fun _ _ => inr mockInstance.

(** What [require('@protocolink/core')] returns, as far as the script looks:
    the own keys, the property read under a class name, the [logics]
    property ([None] when it is null or undefined) and the [createLogic]
    property ([None] when it is null or undefined; calling it may throw,
    as it does when the property is not callable). *)
Record Protocolink : Type := mkProtocolink {
  keys : list string;
  prop : string -> JsVal;
  logics : option (string -> JsVal);
  createLogic : option (string -> Completion JsVal)
}.

(** The three [let] bindings of line 5. *)
Record Logics : Type := mkLogics {
  BalancerV2FlashLoanLogic : JsVal;
  SushiswapV2SwapLogic : JsVal;
  UniswapV3SwapLogic : JsVal
}.

(** How [console.log] prints an array of strings when it keeps it on one
    line, as Node does for a short array (at most six entries that fit the
    line width); Node breaks a longer array over several lines, which is
    not reproduced.  Only the text of the line written at line 8 depends
    on it. *)
Definition inspect (l : list string) : string :=
  match l with
  | [] => "[]"
  | _ => "[ " ++ String.concat ", " (map (fun k => "'" ++ k ++ "'") l) ++ " ]"
  end.

(** [protocolink.X || protocolink.logics?.X || protocolink.createLogic?.(id)
    || MockLogic], evaluated left to right with short circuit. *)
Definition resolveLogic (protocolink : Protocolink) (X id : string) : M JsVal :=
  let direct := prop protocolink X in
  if truthy direct then ret direct
  else
    let nested := match logics protocolink with
                  | Some l => l X
                  | None => JUndefined
                  end in
    if truthy nested then ret nested
    else
      created <- lift (match createLogic protocolink with
                       | Some f => f id
                       | None => inr JUndefined
                       end);;
      if truthy created then ret created else ret (JFunction MockLogic).

(** Lines 6-29: the [try] block resolves the three classes and checks the
    first; the [catch] block reads [e.message], writes it, and binds all
    three to [MockLogic].  Reading the message of a thrown [null] or
    [undefined] throws in the [catch] block itself, before anything is
    written or bound. *)
Definition loadLogics (required : Completion Protocolink) : M Logics :=
  try_catch
    (protocolink <- lift required;;
     console_log ("Protocolink exports: " ++ inspect (keys protocolink));;
     balancer <- resolveLogic protocolink "BalancerV2FlashLoanLogic"
                   "balancer-v2-flash-loan";;
     sushiswap <- resolveLogic protocolink "SushiswapV2SwapLogic"
                    "sushiswap-v2-swap";;
     uniswap <- resolveLogic protocolink "UniswapV3SwapLogic"
                  "uniswap-v3-swap";;
     if negb (isFunction balancer)
     then throw (Raised (mkError "BalancerV2FlashLoanLogic is not a function"))
     else ret (mkLogics balancer sushiswap uniswap))
    (fun e =>
       e_message <- lift (readMessage e);;
       console_error
         ("Error: Could not load Protocolink logic classes. Using mock logic."
          ++ " " ++ e_message);;
       ret (mkLogics (JFunction MockLogic) (JFunction MockLogic)
              (JFunction MockLogic))).

(** ** Configuration (lines 40-53) *)

Definition CHAIN_ID : Z := 1.

(** [process.env.PROVIDER_URL || '...']: an unset or empty variable gives
    the default. *)
Definition PROVIDER_URL (env : option string) : string :=
  match env with
  | None | Some "" => "https://mainnet.infura.io/v3/YOUR_INFURA_KEY"
  | Some u => u
  end.

Definition USDC : Token :=
  mkToken CHAIN_ID "0xA0b86991c6218b36c1d19D4a2e9Eb0cE3606eB48" 6 "USDC"
    "USD Coin".

Definition ETH : Token :=
  mkToken CHAIN_ID "0x0000000000000000000000000000000000000000" 18 "ETH"
    "Ether".

Definition SUSHISWAP_V2_PAIR_ADDRESS : string :=
  "0x397FF1542f962076d0BEEcb4798dA619dEFdFE2B".

Definition UNISWAP_V3_POOL_ADDRESS : string :=
  "0x4e68Ccd3E89f51C3074ca5072bbAC4F90096C57".

(** ** The bot (lines 55-119) *)

Record FlashLoanArbitrageBot : Type := mkBot { flashLoanAmount : Z }.

(** [constructor()]: 100 USDC in units of the token. *)
Definition newFlashLoanArbitrageBot : Completion FlashLoanArbitrageBot :=
  match Ethers.parseUnits "100" (decimals USDC) with
  | inr v => inr (mkBot v)
  | inl e => inl e
  end.

(** [typeof X === 'function' ? new X(CHAIN_ID, provider)
                             : X(CHAIN_ID, provider)]:
    calling what is not a function throws a [TypeError]. *)
Definition instantiate (X : JsVal) (Xname : string) (provider : Provider)
    : M LogicInstance :=
  match X with
  | JFunction c => lift (c CHAIN_ID provider)
  | _ => throw (Raised (mkError (Xname ++ " is not a function")))
  end.

(** The double-quote character of the instruction lines. *)
Definition dq : string := String "034" "".

(** [outputFurucomboInstructions(usdcBorrowed, ethReceived, usdcFinal)]:
    eleven console lines. *)
Definition outputFurucomboInstructions (usdcBorrowed ethReceived usdcFinal : string)
    : M JsVal :=
  console_log (String "010" "=== Furucombo Setup Instructions ===");;
  console_log ("1. Add a " ++ dq ++ "Flash Loan" ++ dq ++ " cube from Balancer V2:");;
  console_log ("   - Borrow Amount: " ++ usdcBorrowed ++ " USDC");;
  console_log ("2. Add a " ++ dq ++ "Swap" ++ dq ++ " cube from Sushiswap V2:");;
  console_log ("   - Input: " ++ usdcBorrowed ++ " USDC (connect from Flash Loan output)");;
  console_log ("   - Output: " ++ ethReceived ++ " ETH");;
  console_log ("3. Add a " ++ dq ++ "Swap" ++ dq ++ " cube from Uniswap V3:");;
  console_log ("   - Input: " ++ ethReceived ++ " ETH (connect from Sushiswap output)");;
  console_log ("   - Output: " ++ usdcFinal ++ " USDC (ensure > " ++ usdcBorrowed
               ++ " for profit)");;
  console_log "4. Review and execute the combo in Furucombo.";;
  console_log "Note: Ensure sufficient liquidity and check gas costs.";;
  ret JUndefined.

(** The [try] block of [checkArbitrageOpportunity] (lines 63-94). *)
Definition checkArbitrageOpportunity_try (L : Logics) (provider : Provider)
    (this : FlashLoanArbitrageBot) : M JsVal :=
  (* Step 1: Flash Loan *)
  flashLoanLogic <- instantiate (BalancerV2FlashLoanLogic L)
                      "BalancerV2FlashLoanLogic" provider;;
  (* [amount: this.flashLoanAmount.toString()]: the same integer *)
  let flashLoanParams := mkFlashLoanParams USDC (flashLoanAmount this) in
  flashLoanQuote <- awaitFlashLoanQuotation BalancerV2FlashLoan flashLoanLogic
                      flashLoanParams;;
  console_log ("Flash Loan: Borrowed "
               ++ Ethers.formatUnits (amount flashLoanQuote) (decimals USDC)
               ++ " " ++ symbol USDC);;
  (* Step 2: Swap USDC to ETH on Sushiswap V2 *)
  sushiswapLogic <- instantiate (SushiswapV2SwapLogic L)
                      "SushiswapV2SwapLogic" provider;;
  let swap1Params := mkSwapParams USDC ETH (amount flashLoanQuote)
                       (Some SUSHISWAP_V2_PAIR_ADDRESS) None in
  swap1Quote <- awaitSwapQuotation SushiswapV2Swap sushiswapLogic swap1Params;;
  let ethReceived := outputAmount swap1Quote in
  console_log ("Swap 1: "
               ++ Ethers.formatUnits (amount flashLoanQuote) (decimals USDC)
               ++ " " ++ symbol USDC ++ " -> "
               ++ Ethers.formatUnits ethReceived (decimals ETH)
               ++ " " ++ symbol ETH);;
  (* Step 3: Swap ETH back to USDC on Uniswap V3 *)
  uniswapLogic <- instantiate (UniswapV3SwapLogic L)
                    "UniswapV3SwapLogic" provider;;
  let swap2Params := mkSwapParams ETH USDC ethReceived
                       None (Some UNISWAP_V3_POOL_ADDRESS) in
  swap2Quote <- awaitSwapQuotation UniswapV3Swap uniswapLogic swap2Params;;
  let usdcReceived := outputAmount swap2Quote in
  console_log ("Swap 2: "
               ++ Ethers.formatUnits ethReceived (decimals ETH)
               ++ " " ++ symbol ETH ++ " -> "
               ++ Ethers.formatUnits usdcReceived (decimals USDC)
               ++ " " ++ symbol USDC);;
  (* Step 4: Check Profitability *)
  let profit := usdcReceived - flashLoanAmount this in
  if profit >? 0 then
    console_log ("Profit: " ++ Ethers.formatUnits profit (decimals USDC)
                 ++ " " ++ symbol USDC);;
    outputFurucomboInstructions
      (Ethers.formatUnits (amount flashLoanQuote) (decimals USDC))
      (Ethers.formatUnits ethReceived (decimals ETH))
      (Ethers.formatUnits usdcReceived (decimals USDC));;
    ret JUndefined
  else
    console_log "No profit detected.";;
    ret JUndefined.

(** [async checkArbitrageOpportunity()]: the [catch] block reads
    [error.message] of whatever the [try] block throws and writes it to
    [console.error]; for a thrown [null] or [undefined] that read throws,
    and the method rejects.  The method has no [return] statement. *)
Definition checkArbitrageOpportunity (L : Logics) (provider : Provider)
    (this : FlashLoanArbitrageBot) : M JsVal :=
  try_catch (checkArbitrageOpportunity_try L provider this)
    (fun error =>
       error_message <- lift (readMessage error);;
       console_error ("Error checking arbitrage opportunity: " ++ error_message);;
       ret JUndefined).

(** [async run()]. *)
Definition run (L : Logics) (provider : Provider) (this : FlashLoanArbitrageBot)
    : M JsVal :=
  console_log "Starting Flash Loan Arbitrage Bot...";;
  checkArbitrageOpportunity L provider this;;
  console_log "Bot run completed.";;
  ret JUndefined.

(** Lines 4-123, the script after its two library requires: load the
    classes, build the provider and the bot, run the bot.  [env] is
    [process.env.PROVIDER_URL] as line 1 leaves it, [required] what
    [require('@protocolink/core')] does.  A rejection of [bot.run()] is
    handled nowhere: it ends the process with a failure. *)
Definition main (env : option string) (required : Completion Protocolink)
    : M JsVal :=
  L <- loadLogics required;;
  let provider := mkProvider (PROVIDER_URL env) in
  bot <- lift newFlashLoanArbitrageBot;;
  run L provider bot.

(** The whole file.  [dotenv] is what line 1, [require('dotenv').config()],
    does and [ethers] what line 2, [require('ethers')], does: each may write
    lines and may throw, which ends the script there. *)
Definition script (dotenv ethers : M unit) (env : option string)
    (required : Completion Protocolink) : M JsVal :=
  dotenv;;
  ethers;;
  main env required.

(** ** The shapes a run can take

    The events of the three steps when their quotations succeed, with [b]
    the borrowed amount the flash-loan quotation reports, [e] the output of
    swap 1 and [u] the output of swap 2. *)

Definition flashLoanParamsOf (this : FlashLoanArbitrageBot) : FlashLoanParams :=
  mkFlashLoanParams USDC (flashLoanAmount this).

Definition swap1ParamsOf (b : Z) : SwapParams :=
  mkSwapParams USDC ETH b (Some SUSHISWAP_V2_PAIR_ADDRESS) None.

Definition swap2ParamsOf (e : Z) : SwapParams :=
  mkSwapParams ETH USDC e None (Some UNISWAP_V3_POOL_ADDRESS).

Definition step1 (this : FlashLoanArbitrageBot) (b : Z) : list Event :=
  [ FlashLoanQuotation BalancerV2FlashLoan (flashLoanParamsOf this)
      (inr (mkFlashLoanQuote b));
    ConsoleLog ("Flash Loan: Borrowed " ++ Ethers.formatUnits b 6 ++ " USDC") ].

Definition step2 (b e : Z) : list Event :=
  [ SwapQuotation SushiswapV2Swap (swap1ParamsOf b) (inr (mkSwapQuote e));
    ConsoleLog ("Swap 1: " ++ Ethers.formatUnits b 6 ++ " USDC -> "
                ++ Ethers.formatUnits e 18 ++ " ETH") ].

Definition step3 (e u : Z) : list Event :=
  [ SwapQuotation UniswapV3Swap (swap2ParamsOf e) (inr (mkSwapQuote u));
    ConsoleLog ("Swap 2: " ++ Ethers.formatUnits e 18 ++ " ETH -> "
                ++ Ethers.formatUnits u 6 ++ " USDC") ].

(** The lines of [outputFurucomboInstructions]. *)
Definition instructionLines (usdcBorrowed ethReceived usdcFinal : string)
    : list string :=
  [ String "010" "=== Furucombo Setup Instructions ===";
    "1. Add a " ++ dq ++ "Flash Loan" ++ dq ++ " cube from Balancer V2:";
    "   - Borrow Amount: " ++ usdcBorrowed ++ " USDC";
    "2. Add a " ++ dq ++ "Swap" ++ dq ++ " cube from Sushiswap V2:";
    "   - Input: " ++ usdcBorrowed ++ " USDC (connect from Flash Loan output)";
    "   - Output: " ++ ethReceived ++ " ETH";
    "3. Add a " ++ dq ++ "Swap" ++ dq ++ " cube from Uniswap V3:";
    "   - Input: " ++ ethReceived ++ " ETH (connect from Sushiswap output)";
    "   - Output: " ++ usdcFinal ++ " USDC (ensure > " ++ usdcBorrowed
      ++ " for profit)";
    "4. Review and execute the combo in Furucombo.";
    "Note: Ensure sufficient liquidity and check gas costs." ].

(** The events of step 4 on the branch taken for [profit]. *)
Definition step4 (b e u profit : Z) : list Event :=
  if profit >? 0 then
    ConsoleLog ("Profit: " ++ Ethers.formatUnits profit 6 ++ " USDC")
    :: map ConsoleLog
         (instructionLines (Ethers.formatUnits b 6) (Ethers.formatUnits e 18)
            (Ethers.formatUnits u 6))
  else [ ConsoleLog "No profit detected." ].

(** The trace of a [try] block that reaches its end. *)
Definition completedTrace (this : FlashLoanArbitrageBot) (b e u : Z) : list Event :=
  (step1 this b ++ step2 b e ++ step3 e u
   ++ step4 b e u (u - flashLoanAmount this))%list.

(** The traces of a [try] block that throws, by the place of the throw:
    one of the three constructions, or one of the three quotations. *)
Inductive Aborted (this : FlashLoanArbitrageBot) : list Event -> Thrown -> Prop :=
| aborted_new_balancer err :
    Aborted this [] err
| aborted_flash_loan err :
    Aborted this
      [ FlashLoanQuotation BalancerV2FlashLoan (flashLoanParamsOf this) (inl err) ]
      err
| aborted_new_sushiswap b err :
    Aborted this (step1 this b) err
| aborted_swap1 b err :
    Aborted this
      (step1 this b
       ++ [ SwapQuotation SushiswapV2Swap (swap1ParamsOf b) (inl err) ])%list
      err
| aborted_new_uniswap b e err :
    Aborted this (step1 this b ++ step2 b e)%list err
| aborted_swap2 b e err :
    Aborted this
      (step1 this b ++ step2 b e
       ++ [ SwapQuotation UniswapV3Swap (swap2ParamsOf e) (inl err) ])%list
      err.

(** ** Observations on a trace *)

(** What a quotation event was rejected with. *)
Definition rejection (ev : Event) : option Thrown :=
  match ev with
  | FlashLoanQuotation _ _ (inl e) => Some e
  | SwapQuotation _ _ (inl e) => Some e
  | _ => None
  end.

Definition isQuotation (ev : Event) : bool :=
  match ev with
  | FlashLoanQuotation _ _ _ | SwapQuotation _ _ _ => true
  | _ => false
  end.

(** The quotation calls of a trace, in order. *)
Definition quotations (t : list Event) : list Event := filter isQuotation t.

(** The lines written with [console.log], in order. *)
Fixpoint logged (t : list Event) : list string :=
  match t with
  | [] => []
  | ConsoleLog line :: r => line :: logged r
  | _ :: r => logged r
  end.

(** [s.startsWith(p)]. *)
Fixpoint startsWith (p s : string) : bool :=
  match p, s with
  | "", _ => true
  | String a p', String b s' => (Ascii.eqb a b && startsWith p' s')%bool
  | String _ _, "" => false
  end.

(** A step of the printed plan: a numbered line that adds a cube. *)
Definition isPlanStep (line : string) : bool :=
  match line with
  | String d (String "." (String " " r)) =>
      (Ascii.leb "0" d && Ascii.leb d "9" && startsWith "Add a " r)%bool
  | _ => false
  end.

(** The steps of the instruction plan a trace holds. *)
Definition planSteps (t : list Event) : list string := filter isPlanStep (logged t).

(** The run reported a profit: it wrote a [Profit: ...] line. *)
Definition profitable (t : list Event) : bool :=
  existsb (startsWith "Profit: ") (logged t).

(** The amounts a trace holds: what the flash-loan quotation asked through
    [BalancerV2FlashLoanLogic] reported as borrowed, and what the swap
    quotations asked through [SushiswapV2SwapLogic] and [UniswapV3SwapLogic]
    gave out. *)
Fixpoint borrowedAmount (t : list Event) : option Z :=
  match t with
  | [] => None
  | FlashLoanQuotation BalancerV2FlashLoan _ (inr q) :: _ => Some (amount q)
  | _ :: r => borrowedAmount r
  end.

Fixpoint intermediateAmount (t : list Event) : option Z :=
  match t with
  | [] => None
  | SwapQuotation SushiswapV2Swap _ (inr q) :: _ => Some (outputAmount q)
  | _ :: r => intermediateAmount r
  end.

Fixpoint finalAmount (t : list Event) : option Z :=
  match t with
  | [] => None
  | SwapQuotation UniswapV3Swap _ (inr q) :: _ => Some (outputAmount q)
  | _ :: r => finalAmount r
  end.

(** The three steps of the printed plan, in order. *)
Definition threePlanSteps : list string :=
  [ "1. Add a " ++ dq ++ "Flash Loan" ++ dq ++ " cube from Balancer V2:";
    "2. Add a " ++ dq ++ "Swap" ++ dq ++ " cube from Sushiswap V2:";
    "3. Add a " ++ dq ++ "Swap" ++ dq ++ " cube from Uniswap V3:" ].

(** The value the specification calls a fully populated ArbitrageResult: an
    object with the five properties defined. *)
Definition isArbitrageResult (v : JsVal) : bool :=
  match v with
  | JObject props =>
      forallb
        (fun k => existsb (fun kv => String.eqb (fst kv) k && truthy (snd kv))%bool
                    props)
        [ "borrowed"; "intermediate"; "final"; "profit"; "profitable" ]
  | _ => false
  end.

(** ** Providers used to exercise the script *)

(** The bindings after a complete fallback. *)
Definition mockLogics : Logics :=
  mkLogics (JFunction MockLogic) (JFunction MockLogic) (JFunction MockLogic).






(** A logic whose quotations are all rejected with [err]. *)
Definition rejectingInstance (err : Thrown) : LogicInstance :=
  mkLogic (fun _ => inl err) (fun _ => inl err).

Definition rejectingLogic (err : Thrown) : LogicClass :=
  fun _ _ => inr (rejectingInstance err).

Definition quoteUnavailable : Error := mkError "QuoteUnavailable".

(** A flash-loan logic whose quotation reports [b] as borrowed, whatever
    was requested; it has no swap quotation. *)
Definition flashLoanLogicQuoting (b : Z) : LogicClass :=
  fun _ _ =>
    inr (mkLogic (fun _ => inr (mkFlashLoanQuote b))
           (fun _ =>
              inl (Raised
                     (mkError "flashLoanLogic.getSwapQuotation is not a function")))).

(** A package that exports the flash-loan class only. *)
Definition moduleWithFlashLoan (b : Z) : Protocolink :=
  mkProtocolink [ "BalancerV2FlashLoanLogic" ]
    (fun X => if String.eqb X "BalancerV2FlashLoanLogic"
              then JFunction (flashLoanLogicQuoting b)
              else JUndefined)
    None None.

(** The provider built when [PROVIDER_URL] is not set. *)
Definition defaultProvider : Provider := mkProvider (PROVIDER_URL None).

(** The bot the script builds: it borrows 100 USDC. *)
Definition theBot : FlashLoanArbitrageBot := mkBot 100000000.

(** The bindings when every class rejects its quotations with [err]. *)
Definition rejectingLogics (err : Thrown) : Logics :=
  mkLogics (JFunction (rejectingLogic err)) (JFunction (rejectingLogic err))
    (JFunction (rejectingLogic err)).

(** The bindings when only swap 1 is rejected. *)
Definition swap1Rejected (err : Thrown) : Logics :=
  mkLogics (JFunction MockLogic) (JFunction (rejectingLogic err))
    (JFunction MockLogic).

(** A swap logic whose quotation gives out [out], whatever is asked; it has
    no flash-loan quotation. *)
Definition swapLogicQuoting (out : Z) : LogicClass :=
  fun _ _ =>
    inr (mkLogic
           (fun _ =>
              inl (Raised
                     (mkError "swapLogic.getFlashLoanQuotation is not a function")))
           (fun _ => inr (mkSwapQuote out))).

(** The bindings of a run whose swap 2 gives out [u], the rest being the
    stub. *)
Definition finalQuoted (u : Z) : Logics :=
  mkLogics (JFunction MockLogic) (JFunction MockLogic)
    (JFunction (swapLogicQuoting u)).

(** ** Further observations and packages *)

(** The lines written with [console.error], in order. *)
Fixpoint errors (t : list Event) : list string :=
  match t with
  | [] => []
  | ConsoleError line :: r => line :: errors r
  | _ :: r => errors r
  end.

(** The binding a quotation was asked through. *)
Definition viaOf (ev : Event) : option LogicName :=
  match ev with
  | FlashLoanQuotation via _ _ | SwapQuotation via _ _ => Some via
  | _ => None
  end.

(** The event is not a rejected quotation. *)
Definition answered (ev : Event) : bool :=
  match rejection ev with
  | None => true
  | Some _ => false
  end.

(** The line the loader's [catch] block writes for [e]. *)
Definition loadFailure (e : Error) : string :=
  "Error: Could not load Protocolink logic classes. Using mock logic."
  ++ " " ++ message e.

(** The line the [catch] block of [checkArbitrageOpportunity] writes. *)
Definition checkFailure (e : Error) : string :=
  "Error checking arbitrage opportunity: " ++ message e.

(** The first line of a load whose [require] succeeded. *)
Definition exportsLine (p : Protocolink) : Event :=
  ConsoleLog ("Protocolink exports: " ++ inspect (keys p)).

Definition factoryFailure : Error := mkError "createLogic: unknown logic".

(** A package exporting the three classes, with a [createLogic] that
    throws. *)
Definition completeModule : Protocolink :=
  mkProtocolink
    [ "BalancerV2FlashLoanLogic"; "SushiswapV2SwapLogic"; "UniswapV3SwapLogic";
      "createLogic" ]
    (fun X =>
       if String.eqb X "BalancerV2FlashLoanLogic"
       then JFunction (flashLoanLogicQuoting 100000000)
       else if String.eqb X "SushiswapV2SwapLogic"
       then JFunction (swapLogicQuoting 40000000000000000)
       else if String.eqb X "UniswapV3SwapLogic"
       then JFunction (swapLogicQuoting 99000000)
       else JUndefined)
    None
    (Some (fun _ => inl (Raised factoryFailure))).

(** A package holding the three classes under [logics] only. *)
Definition namespacedModule : Protocolink :=
  mkProtocolink [ "logics"; "createLogic" ]
    (fun _ => JUndefined)
    (Some (prop completeModule))
    (Some (fun _ => inl (Raised factoryFailure))).

(** A package exporting the two swap classes, whose [createLogic] throws
    when asked for the flash-loan class. *)
Definition throwingFactoryModule : Protocolink :=
  mkProtocolink [ "SushiswapV2SwapLogic"; "UniswapV3SwapLogic"; "createLogic" ]
    (fun X =>
       if String.eqb X "BalancerV2FlashLoanLogic" then JUndefined
       else prop completeModule X)
    None
    (Some (fun _ => inl (Raised factoryFailure))).

(** A package whose flash-loan export is an object, not a class. *)
Definition badFlashLoanModule : Protocolink :=
  mkProtocolink
    [ "BalancerV2FlashLoanLogic"; "SushiswapV2SwapLogic"; "UniswapV3SwapLogic" ]
    (fun X =>
       if String.eqb X "BalancerV2FlashLoanLogic" then JObject []
       else prop completeModule X)
    None None.

(** A package whose first swap export is an object, not a class. *)
Definition badSwapModule : Protocolink :=
  mkProtocolink
    [ "BalancerV2FlashLoanLogic"; "SushiswapV2SwapLogic"; "UniswapV3SwapLogic" ]
    (fun X =>
       if String.eqb X "SushiswapV2SwapLogic" then JObject []
       else prop completeModule X)
    None None.

(** A package that exports the swap-1 class only, a class whose quotations
    are all rejected with [err]. *)
Definition moduleWithRejectingSwap1 (err : Thrown) : Protocolink :=
  mkProtocolink [ "SushiswapV2SwapLogic" ]
    (fun X => if String.eqb X "SushiswapV2SwapLogic"
              then JFunction (rejectingLogic err)
              else JUndefined)
    None None.

(** * Properties *)

Arguments Ethers.formatUnits : simpl never.

(** ** Every run has one of the shapes above *)

Ltac aborts_with c :=
  right; do 2 eexists; split; [ reflexivity | apply c ].

Lemma try_shape L pr this :
  (exists b e u,
     checkArbitrageOpportunity_try L pr this
     = (completedTrace this b e u, inr JUndefined))
  \/ (exists t err,
        checkArbitrageOpportunity_try L pr this = (t, inl err)
        /\ Aborted this t err).
Proof.
  unfold checkArbitrageOpportunity_try, instantiate, awaitFlashLoanQuotation,
    awaitSwapQuotation, lift, throw.
  destruct (BalancerV2FlashLoanLogic L) as [|?|cb]; cbn;
    try aborts_with (aborted_new_balancer this).
  destruct (cb CHAIN_ID pr) as [err|fl]; cbn;
    try aborts_with (aborted_new_balancer this).
  destruct (getFlashLoanQuotation fl _) as [err|[b]]; cbn;
    try aborts_with (aborted_flash_loan this).
  destruct (SushiswapV2SwapLogic L) as [|?|cs]; cbn;
    try aborts_with (aborted_new_sushiswap this b).
  destruct (cs CHAIN_ID pr) as [err|sl]; cbn;
    try aborts_with (aborted_new_sushiswap this b).
  destruct (getSwapQuotation sl _) as [err|[e]]; cbn;
    try aborts_with (aborted_swap1 this b).
  destruct (UniswapV3SwapLogic L) as [|?|cu]; cbn;
    try aborts_with (aborted_new_uniswap this b e).
  destruct (cu CHAIN_ID pr) as [err|ul]; cbn;
    try aborts_with (aborted_new_uniswap this b e).
  destruct (getSwapQuotation ul _) as [err|[u]]; cbn;
    try aborts_with (aborted_swap2 this b e).
  left. exists b, e, u. unfold completedTrace, step4.
  destruct (u - flashLoanAmount this >? 0); reflexivity.
Qed.

(** A [try] block that completes has run the three steps and returns
    nothing. *)
Lemma try_completed L pr this t v :
  checkArbitrageOpportunity_try L pr this = (t, inr v) ->
  v = JUndefined /\ exists b e u, t = completedTrace this b e u.
Proof.
  intros H. destruct (try_shape L pr this) as [(b & e & u & E)|(t' & err & E & _)];
    rewrite E in H; inversion H; subst; eauto.
Qed.

(** The method after its [try] block: a completed block is the whole
    method; a block that threw an [Error] is followed by one [console.error]
    line and the method completes; a block that threw [null] or [undefined]
    makes the [catch] block throw, and the method rejects with that
    [TypeError], nothing more being written. *)
Lemma check_shape L pr this :
  (exists b e u,
     checkArbitrageOpportunity_try L pr this
     = (completedTrace this b e u, inr JUndefined)
     /\ checkArbitrageOpportunity L pr this
        = (completedTrace this b e u, inr JUndefined))
  \/ (exists t err,
        Aborted this t (Raised err)
        /\ checkArbitrageOpportunity_try L pr this = (t, inl (Raised err))
        /\ checkArbitrageOpportunity L pr this
           = ((t ++ [ ConsoleError (checkFailure err) ])%list, inr JUndefined))
  \/ (exists t k,
        Aborted this t (RaisedNullish k)
        /\ checkArbitrageOpportunity_try L pr this = (t, inl (RaisedNullish k))
        /\ checkArbitrageOpportunity L pr this
           = (t, inl (Raised (cannotReadMessage k)))).
Proof.
  unfold checkArbitrageOpportunity.
  destruct (try_shape L pr this) as [(b & e & u & E)|(t & [err|k] & E & A)];
    rewrite E.
  - left. exists b, e, u. auto.
  - right. left. exists t, err. auto.
  - right. right. exists t, k. cbn. rewrite app_nil_r. auto.
Qed.

(** ** What the observations see in each shape *)

Lemma quotations_completed this b e u :
  quotations (completedTrace this b e u)
  = [ FlashLoanQuotation BalancerV2FlashLoan
        (mkFlashLoanParams USDC (flashLoanAmount this))
        (inr (mkFlashLoanQuote b));
      SwapQuotation SushiswapV2Swap
        (mkSwapParams USDC ETH b (Some SUSHISWAP_V2_PAIR_ADDRESS) None)
        (inr (mkSwapQuote e));
      SwapQuotation UniswapV3Swap
        (mkSwapParams ETH USDC e None (Some UNISWAP_V3_POOL_ADDRESS))
        (inr (mkSwapQuote u)) ].
Proof.
  unfold completedTrace, step4.
  destruct (u - flashLoanAmount this >? 0); reflexivity.
Qed.

Lemma amounts_completed this b e u :
  borrowedAmount (completedTrace this b e u) = Some b
  /\ intermediateAmount (completedTrace this b e u) = Some e
  /\ finalAmount (completedTrace this b e u) = Some u.
Proof. repeat split. Qed.

Lemma profitable_completed this b e u :
  profitable (completedTrace this b e u) = (u - flashLoanAmount this >? 0).
Proof.
  unfold completedTrace, step4, profitable.
  destruct (u - flashLoanAmount this >? 0); reflexivity.
Qed.

Lemma planSteps_completed this b e u :
  planSteps (completedTrace this b e u)
  = if u - flashLoanAmount this >? 0 then threePlanSteps else [].
Proof.
  unfold completedTrace, step4, planSteps.
  destruct (u - flashLoanAmount this >? 0); reflexivity.
Qed.

Lemma logged_completed this b e u :
  logged (completedTrace this b e u)
  = List.app
      [ "Flash Loan: Borrowed " ++ Ethers.formatUnits b 6 ++ " USDC";
        "Swap 1: " ++ Ethers.formatUnits b 6 ++ " USDC -> "
          ++ Ethers.formatUnits e 18 ++ " ETH";
        "Swap 2: " ++ Ethers.formatUnits e 18 ++ " ETH -> "
          ++ Ethers.formatUnits u 6 ++ " USDC" ]
      (if u - flashLoanAmount this >? 0
       then ("Profit: " ++ Ethers.formatUnits (u - flashLoanAmount this) 6
             ++ " USDC")
            :: instructionLines (Ethers.formatUnits b 6)
                 (Ethers.formatUnits e 18) (Ethers.formatUnits u 6)
       else [ "No profit detected." ]).
Proof.
  unfold completedTrace, step4.
  destruct (u - flashLoanAmount this >? 0); reflexivity.
Qed.

(** An aborted [try] block, followed or not by a [console.error] line, has
    written no profit line and no plan step, has no final amount, and asked
    no swap-2 quotation that was answered. *)
Lemma aborted_observed this t err tail line :
  Aborted this t err ->
  tail = [] \/ tail = [ ConsoleError line ] ->
  let t' := (t ++ tail)%list in
  profitable t' = false /\ planSteps t' = [] /\ finalAmount t' = None
  /\ (forall p a, ~ In (SwapQuotation UniswapV3Swap p (inr a)) t').
Proof.
  intros A [->| ->]; destruct A; cbn; repeat split; intros p a H;
    repeat (destruct H as [H|H]; [ discriminate H | ]); exact H.
Qed.

(** A run whose constructions and quotations all succeed completes, with
    the amounts the quotations gave. *)
Lemma try_completes L pr this cb cs cu fl sl ul b e u :
  BalancerV2FlashLoanLogic L = JFunction cb -> cb CHAIN_ID pr = inr fl ->
  getFlashLoanQuotation fl (flashLoanParamsOf this) = inr (mkFlashLoanQuote b) ->
  SushiswapV2SwapLogic L = JFunction cs -> cs CHAIN_ID pr = inr sl ->
  getSwapQuotation sl (swap1ParamsOf b) = inr (mkSwapQuote e) ->
  UniswapV3SwapLogic L = JFunction cu -> cu CHAIN_ID pr = inr ul ->
  getSwapQuotation ul (swap2ParamsOf e) = inr (mkSwapQuote u) ->
  checkArbitrageOpportunity_try L pr this
  = (completedTrace this b e u, inr JUndefined).
Proof.
  intros HB Hcb Hfl HS Hcs Hsl HU Hcu Hul.
  unfold checkArbitrageOpportunity_try, instantiate, awaitFlashLoanQuotation,
    awaitSwapQuotation, lift.
  unfold flashLoanParamsOf in Hfl. unfold swap1ParamsOf in Hsl.
  unfold swap2ParamsOf in Hul.
  rewrite HB, Hcb. cbn. rewrite Hfl. cbn.
  rewrite HS, Hcs. cbn. rewrite Hsl. cbn.
  rewrite HU, Hcu. cbn. rewrite Hul. cbn.
  unfold completedTrace, step4.
  destruct (u - flashLoanAmount this >? 0); reflexivity.
Qed.

Lemma mock_swap_quotation p :
  getSwapQuotation mockInstance p
  = inr (mkSwapQuote (if String.eqb (symbol (inputToken p)) "USDC"
                      then 40000000000000000 else 104000000)).
Proof.
  unfold mockInstance, getSwapQuotation.
  destruct (String.eqb (symbol (inputToken p)) "USDC"); vm_compute; reflexivity.
Qed.

(** The bot the script builds borrows 100 USDC. *)
Lemma newFlashLoanArbitrageBot_eq :
  newFlashLoanArbitrageBot = inr (mkBot 100000000).
Proof. vm_compute. reflexivity. Qed.

(** [run] writes its first line, then does what [checkArbitrageOpportunity]
    does; it writes its last line and completes when the method completes,
    and rejects with what the method rejects with. *)
Lemma run_eq L pr this :
  run L pr this
  = match snd (checkArbitrageOpportunity L pr this) with
    | inr _ =>
        (ConsoleLog "Starting Flash Loan Arbitrage Bot..."
           :: fst (checkArbitrageOpportunity L pr this)
           ++ [ ConsoleLog "Bot run completed." ],
         inr JUndefined)%list
    | inl x =>
        (ConsoleLog "Starting Flash Loan Arbitrage Bot..."
           :: fst (checkArbitrageOpportunity L pr this),
         inl x)
    end.
Proof.
  unfold run.
  destruct (checkArbitrageOpportunity L pr this) as (t & [x|v]); reflexivity.
Qed.


Ltac in_cases H :=
  repeat (destruct H as [H|H]; [ try discriminate H | ]); try contradiction H.

(** The loader falls back to [MockLogic] for a class it finds nowhere. *)
Lemma resolveLogic_fallback p X id :
  truthy (prop p X) = false ->
  match logics p with
  | Some l => truthy (l X) = false
  | None => True
  end ->
  match createLogic p with
  | Some f => exists v, f id = inr v /\ truthy v = false
  | None => True
  end ->
  resolveLogic p X id = ([], inr (JFunction MockLogic)).
Proof.
  intros Hd Hn Hc. unfold resolveLogic. rewrite Hd.
  assert (En : truthy match logics p with
                      | Some l => l X
                      | None => JUndefined
                      end = false)
    by (destruct (logics p); [ exact Hn | reflexivity ]).
  rewrite En.
  destruct (createLogic p) as [f|].
  - destruct Hc as (v & -> & Hv). cbn. rewrite Hv. reflexivity.
  - reflexivity.
Qed.

(** ** Scenarios of the specification *)

(** Scenario B: a final amount of 99_000000 units is a loss of 1_000000;
    nothing but "No profit detected." follows the three quotations. *)
Example scenario_B :
  checkArbitrageOpportunity (finalQuoted 99000000) defaultProvider theBot
  = (completedTrace theBot 100000000 40000000000000000 99000000, inr JUndefined)
  /\ 99000000 - flashLoanAmount theBot = -1000000
  /\ profitable (completedTrace theBot 100000000 40000000000000000 99000000)
     = false
  /\ planSteps (completedTrace theBot 100000000 40000000000000000 99000000) = []
  /\ logged (completedTrace theBot 100000000 40000000000000000 99000000)
     = [ "Flash Loan: Borrowed 100.0 USDC";
         "Swap 1: 100.0 USDC -> 0.04 ETH";
         "Swap 2: 0.04 ETH -> 99.0 USDC";
         "No profit detected." ].
Proof. repeat split; vm_compute; reflexivity. Qed.

(** The boundary: a final amount equal to the loan is no profit. *)
Example zero_profit_not_profitable :
  100000000 - flashLoanAmount theBot = 0
  /\ logged (fst (checkArbitrageOpportunity (finalQuoted 100000000)
                    defaultProvider theBot))
     = [ "Flash Loan: Borrowed 100.0 USDC";
         "Swap 1: 100.0 USDC -> 0.04 ETH";
         "Swap 2: 0.04 ETH -> 100.0 USDC";
         "No profit detected." ].
Proof. split; vm_compute; reflexivity. Qed.

(** [formatUnits] and [parseUnits] on the amounts of the script. *)
Example formatUnits_examples :
  Ethers.formatUnits 100000000 6 = "100.0"
  /\ Ethers.formatUnits 40000000000000000 18 = "0.04"
  /\ Ethers.formatUnits (-1000000) 6 = "-1.0"
  /\ Ethers.formatUnits 1234567 6 = "1.234567"
  /\ Ethers.formatUnits 5 0 = "5".
Proof. repeat split; vm_compute; reflexivity. Qed.

Example parseUnits_examples :
  Ethers.parseUnits "100" 6 = inr 100000000
  /\ Ethers.parseEther "0.04" = inr 40000000000000000
  /\ Ethers.parseUnits "104" 6 = inr 104000000
  /\ Ethers.parseUnits "1.5x" 6 = inl (Raised Ethers.invalidDecimal)
  /\ Ethers.parseUnits "0.1234567" 6 = inl (Raised Ethers.underflow).
Proof. repeat split; vm_compute; reflexivity. Qed.

(** ** The claims *)

(** C4. In every evaluation that completes, the run is marked profitable
    (it takes the branch that prints the profit and the plan) exactly when
    the profit, final amount minus [flashLoanAmount], is strictly positive;
    a profit of zero, like a negative one, prints "No profit detected." *)
Theorem profitable_iff_profit_positive L pr this t v :
  checkArbitrageOpportunity_try L pr this = (t, inr v) ->
  exists u,
    finalAmount t = Some u
    /\ (profitable t = true <-> u - flashLoanAmount this > 0)
    /\ (profitable t = false <-> u - flashLoanAmount this <= 0)
    /\ (u - flashLoanAmount this = 0 ->
        profitable t = false /\ In "No profit detected." (logged t)).
Proof.
  intros H. apply try_completed in H. destruct H as (_ & b & e & u & ->).
  exists u. rewrite profitable_completed, logged_completed.
  split; [ reflexivity | ].
  destruct (Z.gtb_spec (u - flashLoanAmount this) 0) as [Hgt|Hle].
  - repeat split; intros; try lia; try discriminate.
  - repeat split; intros; try lia; try discriminate.
    right. right. right. left. reflexivity.
Qed.

Lemma profitable_iff_profit_positive_witness :
  checkArbitrageOpportunity_try mockLogics defaultProvider theBot
  = (completedTrace theBot 100000000 40000000000000000 104000000, inr JUndefined)
  /\ exists u,
       finalAmount (completedTrace theBot 100000000 40000000000000000 104000000)
       = Some u
       /\ (profitable (completedTrace theBot 100000000 40000000000000000 104000000)
           = true <-> u - flashLoanAmount theBot > 0)
       /\ (profitable (completedTrace theBot 100000000 40000000000000000 104000000)
           = false <-> u - flashLoanAmount theBot <= 0)
       /\ (u - flashLoanAmount theBot = 0 ->
           profitable (completedTrace theBot 100000000 40000000000000000 104000000)
           = false
           /\ In "No profit detected."
                (logged (completedTrace theBot 100000000 40000000000000000
                           104000000))).
Proof.
  split.
  - vm_compute. reflexivity.
  - apply (profitable_iff_profit_positive mockLogics defaultProvider theBot _
             JUndefined).
    vm_compute. reflexivity.
Defined.

(** C5. In every evaluation that completes there are exactly three
    quotation calls, chained: swap 1 is asked for the amount the flash-loan
    quotation reported (token USDC), and swap 2 for the amount swap 1 gave
    out (token ETH), unchanged. *)
Theorem quotations_chained L pr this t v :
  checkArbitrageOpportunity_try L pr this = (t, inr v) ->
  exists b e u,
    quotations t
    = [ FlashLoanQuotation BalancerV2FlashLoan
          {| token := USDC; fl_amount := flashLoanAmount this |}
          (inr {| amount := b |});
        SwapQuotation SushiswapV2Swap
          {| inputToken := USDC; outputToken := ETH; sw_amount := b;
             pairAddress := Some SUSHISWAP_V2_PAIR_ADDRESS; poolAddress := None |}
          (inr {| outputAmount := e |});
        SwapQuotation UniswapV3Swap
          {| inputToken := ETH; outputToken := USDC; sw_amount := e;
             pairAddress := None; poolAddress := Some UNISWAP_V3_POOL_ADDRESS |}
          (inr {| outputAmount := u |}) ].
Proof.
  intros H. apply try_completed in H. destruct H as (_ & b & e & u & ->).
  exists b, e, u. apply quotations_completed.
Qed.

Lemma quotations_chained_witness :
  checkArbitrageOpportunity_try mockLogics defaultProvider theBot
  = (completedTrace theBot 100000000 40000000000000000 104000000, inr JUndefined)
  /\ exists b e u,
       quotations (completedTrace theBot 100000000 40000000000000000 104000000)
       = [ FlashLoanQuotation BalancerV2FlashLoan
             {| token := USDC; fl_amount := flashLoanAmount theBot |}
             (inr {| amount := b |});
           SwapQuotation SushiswapV2Swap
             {| inputToken := USDC; outputToken := ETH; sw_amount := b;
                pairAddress := Some SUSHISWAP_V2_PAIR_ADDRESS;
                poolAddress := None |}
             (inr {| outputAmount := e |});
           SwapQuotation UniswapV3Swap
             {| inputToken := ETH; outputToken := USDC; sw_amount := e;
                pairAddress := None;
                poolAddress := Some UNISWAP_V3_POOL_ADDRESS |}
             (inr {| outputAmount := u |}) ].
Proof.
  split.
  - vm_compute. reflexivity.
  - apply (quotations_chained mockLogics defaultProvider theBot _ JUndefined).
    vm_compute. reflexivity.
Defined.

(** C6. The instruction plan is printed exactly when the run is
    profitable: every call of [checkArbitrageOpportunity] prints the three
    plan steps, flash loan, then the Sushiswap swap, then the Uniswap swap,
    when it is profitable, and none otherwise.  A profitable run has a
    final amount above [flashLoanAmount], and its last eleven lines are
    those of [outputFurucomboInstructions] for the three quoted amounts
    (the three steps with their amounts, then the closing "Review and
    execute" line and the note). *)
Theorem plan_iff_profitable L pr this :
  let t := fst (checkArbitrageOpportunity L pr this) in
  planSteps t = (if profitable t then threePlanSteps else [])
  /\ (planSteps t <> [] <-> profitable t = true)
  /\ (profitable t = true ->
      exists b e u,
        borrowedAmount t = Some b /\ intermediateAmount t = Some e
        /\ finalAmount t = Some u /\ u - flashLoanAmount this > 0
        /\ skipn 4 (logged t)
           = instructionLines (Ethers.formatUnits b 6) (Ethers.formatUnits e 18)
               (Ethers.formatUnits u 6)).
Proof.
  destruct (check_shape L pr this)
    as [(b & e & u & _ & E)|[(t & err & A & _ & E)|(t & k & A & _ & E)]];
    rewrite E; cbn [fst].
  - rewrite planSteps_completed, profitable_completed, logged_completed.
    destruct (Z.gtb_spec (u - flashLoanAmount this) 0) as [Hgt|Hle].
    + repeat split; try discriminate.
      intros _. exists b, e, u. repeat split. lia.
    + repeat split; try discriminate; intros H; contradiction H; reflexivity.
  - destruct (aborted_observed this t _ _ (checkFailure err) A (or_intror eq_refl))
      as (P & S & _).
    rewrite P, S. repeat split; try discriminate.
    intros H; contradiction H; reflexivity.
  - destruct (aborted_observed this t _ _ "" A (or_introl eq_refl))
      as (P & S & _).
    rewrite app_nil_r in P, S.
    rewrite P, S. repeat split; try discriminate.
    intros H; contradiction H; reflexivity.
Qed.

Lemma plan_iff_profitable_witness :
  profitable (fst (checkArbitrageOpportunity mockLogics defaultProvider theBot))
  = true
  /\ planSteps (fst (checkArbitrageOpportunity mockLogics defaultProvider theBot))
     = threePlanSteps.
Proof.
  split.
  - vm_compute. reflexivity.
  - destruct (plan_iff_profitable mockLogics defaultProvider theBot) as (H & _).
    rewrite H. vm_compute. reflexivity.
Defined.

(** C8. The [catch] block misses one case.  With a swap-1 class whose
    quotation is rejected with [undefined] (the other two classes falling
    back to the stub), swap 2 is asked nothing and nothing is printed about
    profit, but the run does not end cleanly: reading [error.message] at
    line 96 throws, [checkArbitrageOpportunity] and [run] reject with that
    [TypeError], neither the error line nor "Bot run completed." is
    written, and the script ends on the unhandled rejection. *)
Theorem swap1_undefined_rejection_crashes_run :
  let r := main None (inr (moduleWithRejectingSwap1 (RaisedNullish Undefined))) in
  In (SwapQuotation SushiswapV2Swap (swap1ParamsOf 100000000)
        (inl (RaisedNullish Undefined)))
    (fst r)
  /\ (forall p a, ~ In (SwapQuotation UniswapV3Swap p a) (fst r))
  /\ profitable (fst r) = false /\ planSteps (fst r) = []
  /\ snd r = inl (Raised (cannotReadMessage Undefined))
  /\ errors (fst r) = []
  /\ ~ In (ConsoleLog "Bot run completed.") (fst r)
  /\ snd (run (swap1Rejected (RaisedNullish Undefined)) defaultProvider theBot)
     = inl (Raised (cannotReadMessage Undefined)).
Proof.
  vm_compute. split; [ do 4 right; left; reflexivity | ].
  split; [ intros p a H; in_cases H | ].
  repeat split. intros H; in_cases H.
Qed.

(** C3, as the code has it.  A quotation rejected with an [Error] is not
    raised to the caller: [checkArbitrageOpportunity] catches the error,
    writes "Error checking arbitrage opportunity: " and the message to
    [console.error] as its last event, right after the rejected call and
    with no rejected call before it, and completes with [undefined]. *)
Theorem rejected_quotation_is_logged L pr this ev err :
  In ev (fst (checkArbitrageOpportunity L pr this)) ->
  rejection ev = Some (Raised err) ->
  snd (checkArbitrageOpportunity L pr this) = inr JUndefined
  /\ exists pre,
       fst (checkArbitrageOpportunity L pr this)
       = (pre ++ [ ev;
                   ConsoleError ("Error checking arbitrage opportunity: "
                                 ++ message err) ])%list
       /\ Forall (fun ev' => rejection ev' = None) pre.
Proof.
  destruct (check_shape L pr this)
    as [(b & e & u & _ & E)|[(t & err' & A & _ & E)|(t & k & A & _ & E)]];
    rewrite E; cbn [fst snd].
  - intros H R. exfalso. unfold completedTrace, step4 in H.
    destruct (u - flashLoanAmount this >? 0); cbn in H; in_cases H;
      subst ev; discriminate R.
  - intros H R. split; [ reflexivity | ].
    inversion A; subst; cbn in H; in_cases H; subst ev; try discriminate R;
      injection R as <-.
    + exists []. split; [ reflexivity | constructor ].
    + exists (step1 this b). split; [ reflexivity | ].
      repeat constructor.
    + exists (step1 this b ++ step2 b e)%list. split; [ reflexivity | ].
      repeat constructor.
  - intros H R. exfalso.
    inversion A; subst; cbn in H; in_cases H; subst ev; discriminate R.
Qed.

Lemma rejected_quotation_is_logged_witness :
  In (FlashLoanQuotation BalancerV2FlashLoan (flashLoanParamsOf theBot)
        (inl (Raised quoteUnavailable)))
    (fst (checkArbitrageOpportunity (rejectingLogics (Raised quoteUnavailable))
            defaultProvider theBot))
  /\ rejection (FlashLoanQuotation BalancerV2FlashLoan (flashLoanParamsOf theBot)
                  (inl (Raised quoteUnavailable)))
     = Some (Raised quoteUnavailable)
  /\ snd (checkArbitrageOpportunity (rejectingLogics (Raised quoteUnavailable))
            defaultProvider theBot)
     = inr JUndefined.
Proof.
  assert (H : In (FlashLoanQuotation BalancerV2FlashLoan (flashLoanParamsOf theBot)
                    (inl (Raised quoteUnavailable)))
                (fst (checkArbitrageOpportunity
                        (rejectingLogics (Raised quoteUnavailable))
                        defaultProvider theBot))).
  { vm_compute. left. reflexivity. }
  split; [ exact H | ]. split; [ reflexivity | ].
  exact (proj1 (rejected_quotation_is_logged _ _ _ _ quoteUnavailable H eq_refl)).
Defined.

(** C3, as stated, fails: with a flash-loan quotation rejected with
    QuoteUnavailable, the method does not fail with that error (nor with
    any other): it completes. *)
Lemma rejected_quotation_not_raised :
  (exists ev,
     In ev (fst (checkArbitrageOpportunity
                   (rejectingLogics (Raised quoteUnavailable))
                   defaultProvider theBot))
     /\ rejection ev = Some (Raised quoteUnavailable))
  /\ ~ (exists err,
          snd (checkArbitrageOpportunity
                 (rejectingLogics (Raised quoteUnavailable))
                 defaultProvider theBot)
          = inl err).
Proof.
  split.
  - eexists. split; [ left; reflexivity | reflexivity ].
  - intros (err & H). discriminate H.
Qed.

(** C7, as the code has it.  An evaluation that completes returns
    [undefined]; the borrowed, intermediate and final amounts are written
    to the console, followed by the profit and the instructions when the
    profit is positive and by "No profit detected." otherwise. *)
Theorem completed_run_logs_amounts L pr this t v :
  checkArbitrageOpportunity_try L pr this = (t, inr v) ->
  checkArbitrageOpportunity L pr this = (t, inr JUndefined)
  /\ exists b e u,
       borrowedAmount t = Some b /\ intermediateAmount t = Some e
       /\ finalAmount t = Some u
       /\ logged t
          = List.app
              [ "Flash Loan: Borrowed " ++ Ethers.formatUnits b 6 ++ " USDC";
                "Swap 1: " ++ Ethers.formatUnits b 6 ++ " USDC -> "
                  ++ Ethers.formatUnits e 18 ++ " ETH";
                "Swap 2: " ++ Ethers.formatUnits e 18 ++ " ETH -> "
                  ++ Ethers.formatUnits u 6 ++ " USDC" ]
              (if u - flashLoanAmount this >? 0
               then ("Profit: "
                     ++ Ethers.formatUnits (u - flashLoanAmount this) 6
                     ++ " USDC")
                    :: instructionLines (Ethers.formatUnits b 6)
                         (Ethers.formatUnits e 18) (Ethers.formatUnits u 6)
               else [ "No profit detected." ]).
Proof.
  intros H. pose proof (try_completed _ _ _ _ _ H) as (-> & b & e & u & ->).
  split.
  - unfold checkArbitrageOpportunity. rewrite H. reflexivity.
  - exists b, e, u. rewrite logged_completed. repeat split.
Qed.

Lemma completed_run_logs_amounts_witness :
  checkArbitrageOpportunity_try mockLogics defaultProvider theBot
  = (completedTrace theBot 100000000 40000000000000000 104000000, inr JUndefined)
  /\ checkArbitrageOpportunity mockLogics defaultProvider theBot
     = (completedTrace theBot 100000000 40000000000000000 104000000,
        inr JUndefined).
Proof.
  assert (H : checkArbitrageOpportunity_try mockLogics defaultProvider theBot
              = (completedTrace theBot 100000000 40000000000000000 104000000,
                 inr JUndefined)).
  { vm_compute. reflexivity. }
  split; [ exact H | ].
  exact (proj1 (completed_run_logs_amounts _ _ _ _ _ H)).
Defined.

(** C7, as stated, fails: the evaluation of the fallback run completes, and
    what it returns is not an ArbitrageResult. *)
Lemma completed_run_returns_no_result :
  checkArbitrageOpportunity_try mockLogics defaultProvider theBot
  = (completedTrace theBot 100000000 40000000000000000 104000000, inr JUndefined)
  /\ ~ (exists v,
          snd (checkArbitrageOpportunity mockLogics defaultProvider theBot) = inr v
          /\ isArbitrageResult v = true).
Proof.
  split.
  - vm_compute. reflexivity.
  - intros (v & Hv & R). vm_compute in Hv. injection Hv as <-. discriminate R.
Qed.




(** C9. Scenario A: whenever an evaluation of the bot that borrows
    100_000000 units completes with the quotations 100_000000 (borrowed),
    40_000000000000000 (swap 1) and 104_000000 (swap 2), the profit is
    exactly 4_000000 units, printed as "Profit: 4.0 USDC", the run is
    profitable and the three-step plan is printed. *)
Theorem scenario_A L pr this t v :
  flashLoanAmount this = 100000000 ->
  checkArbitrageOpportunity_try L pr this = (t, inr v) ->
  borrowedAmount t = Some 100000000 ->
  intermediateAmount t = Some 40000000000000000 ->
  finalAmount t = Some 104000000 ->
  104000000 - flashLoanAmount this = 4000000
  /\ In (ConsoleLog "Profit: 4.0 USDC") t
  /\ profitable t = true
  /\ planSteps t = threePlanSteps
  /\ logged t
     = List.app
         [ "Flash Loan: Borrowed 100.0 USDC";
           "Swap 1: 100.0 USDC -> 0.04 ETH";
           "Swap 2: 0.04 ETH -> 104.0 USDC";
           "Profit: 4.0 USDC" ]
         (instructionLines "100.0" "0.04" "104.0").
Proof.
  intros Hthis H Hb He Hu.
  apply try_completed in H. destruct H as (_ & b & e & u & ->).
  destruct (amounts_completed this b e u) as (Eb & Ee & Eu).
  rewrite Eb in Hb. rewrite Ee in He. rewrite Eu in Hu.
  injection Hb as ->. injection He as ->. injection Hu as ->.
  destruct this as [a]. cbn in Hthis. subst a.
  split; [ reflexivity | ].
  split; [ vm_compute; do 6 right; left; reflexivity | ].
  repeat split; vm_compute; reflexivity.
Qed.

Lemma scenario_A_witness :
  flashLoanAmount theBot = 100000000
  /\ checkArbitrageOpportunity_try mockLogics defaultProvider theBot
     = (completedTrace theBot 100000000 40000000000000000 104000000,
        inr JUndefined)
  /\ profitable (completedTrace theBot 100000000 40000000000000000 104000000)
     = true
  /\ planSteps (completedTrace theBot 100000000 40000000000000000 104000000)
     = threePlanSteps.
Proof.
  assert (H : checkArbitrageOpportunity_try mockLogics defaultProvider theBot
              = (completedTrace theBot 100000000 40000000000000000 104000000,
                 inr JUndefined)).
  { vm_compute. reflexivity. }
  split; [ reflexivity | ]. split; [ exact H | ].
  destruct (scenario_A mockLogics defaultProvider theBot _ _ eq_refl H
              eq_refl eq_refl eq_refl) as (_ & _ & P & S & _).
  split; [ exact P | exact S ].
Defined.

(** C10. The stub's swap quotation does not look at the requested amount:
    two requests whose input tokens have the same symbol get the same
    answer, 0.04 * 10^18 units when the symbol is USDC and 104 * 10^6 units
    otherwise.  So with the stub behind both swaps, whatever amount the
    flash-loan quotation reports as borrowed, the final amount is
    104_000000 and the profit is 104_000000 minus [flashLoanAmount]. *)
Theorem mock_swap_ignores_amount p q :
  symbol (inputToken p) = symbol (inputToken q) ->
  getSwapQuotation mockInstance p = getSwapQuotation mockInstance q
  /\ getSwapQuotation mockInstance p
     = inr {| outputAmount :=
                if String.eqb (symbol (inputToken p)) "USDC"
                then 40000000000000000 else 104000000 |}
  /\ forall cb fl pr this b,
       cb CHAIN_ID pr = inr fl ->
       getFlashLoanQuotation fl (flashLoanParamsOf this) = inr {| amount := b |} ->
       checkArbitrageOpportunity
         (mkLogics (JFunction cb) (JFunction MockLogic) (JFunction MockLogic))
         pr this
       = (completedTrace this b 40000000000000000 104000000, inr JUndefined).
Proof.
  intros Hs. split; [ | split ].
  - rewrite !mock_swap_quotation, Hs. reflexivity.
  - apply mock_swap_quotation.
  - intros cb fl pr this b Hcb Hfl. unfold checkArbitrageOpportunity.
    rewrite (try_completes _ pr this cb MockLogic MockLogic fl mockInstance
               mockInstance b 40000000000000000 104000000);
      try reflexivity; try assumption; apply mock_swap_quotation.
Qed.

Lemma mock_swap_ignores_amount_witness :
  symbol (inputToken (swap1ParamsOf 100000000))
  = symbol (inputToken (swap1ParamsOf 7))
  /\ getSwapQuotation mockInstance (swap1ParamsOf 100000000)
     = getSwapQuotation mockInstance (swap1ParamsOf 7).
Proof.
  split; [ reflexivity | ].
  exact (proj1 (mock_swap_ignores_amount (swap1ParamsOf 100000000)
                  (swap1ParamsOf 7) eq_refl)).
Defined.

(** C1. The profit is computed against [flashLoanAmount], not against the
    amount the flash-loan quotation reports.  With a flash-loan class
    reporting 105_000000 borrowed for the 100_000000 requested and the stub
    behind the swaps, the final amount is 104_000000: final minus borrowed
    is -1_000000, yet the run prints a profit of 4_000000 units and the
    plan, whose last step asks to ensure more than 105.0 for profit. *)
Theorem profit_ignores_quoted_amount :
  let t := fst (main None (inr (moduleWithFlashLoan 105000000))) in
  borrowedAmount t = Some 105000000
  /\ finalAmount t = Some 104000000
  /\ 104000000 - 105000000 = -1000000
  /\ 104000000 - flashLoanAmount theBot = 4000000
  /\ profitable t = true
  /\ planSteps t = threePlanSteps
  /\ In (ConsoleLog "Profit: 4.0 USDC") t
  /\ In (ConsoleLog "   - Output: 104.0 USDC (ensure > 105.0 for profit)") t.
Proof.
  vm_compute. repeat split.
  - do 8 right. left. reflexivity.
  - do 17 right. left. reflexivity.
Qed.

(** * Further properties of the script *)

(** ** The loader *)

(** A class found as a direct export is taken as it is. *)
Lemma resolveLogic_direct p X id :
  truthy (prop p X) = true -> resolveLogic p X id = ([], inr (prop p X)).
Proof. intros H. unfold resolveLogic. rewrite H. reflexivity. Qed.

(** A class absent from the exports and found under [logics] is taken from
    there. *)
Lemma resolveLogic_nested p l X id :
  truthy (prop p X) = false -> logics p = Some l -> truthy (l X) = true ->
  resolveLogic p X id = ([], inr (l X)).
Proof.
  intros H Hl Hn. unfold resolveLogic. rewrite H, Hl, Hn. reflexivity.
Qed.

(** A class found nowhere, with a [createLogic] that throws. *)
Lemma resolveLogic_throws p f X id e :
  truthy (prop p X) = false ->
  match logics p with
  | Some l => truthy (l X) = false
  | None => True
  end ->
  createLogic p = Some f -> f id = inl e ->
  resolveLogic p X id = ([], inl e).
Proof.
  intros H Hn Hc Hf. unfold resolveLogic. rewrite H.
  assert (En : truthy match logics p with
                      | Some l => l X
                      | None => JUndefined
                      end = false)
    by (destruct (logics p); [ exact Hn | reflexivity ]).
  rewrite En, Hc, Hf. reflexivity.
Qed.

(** Resolving a class writes nothing, and what it yields is never falsy. *)
Lemma resolveLogic_shape p X id :
  exists r, resolveLogic p X id = ([], r)
            /\ match r with
               | inr v => truthy v = true
               | inl _ => True
               end.
Proof.
  unfold resolveLogic.
  destruct (truthy (prop p X)) eqn:Hd; [ eexists; split; [ reflexivity | exact Hd ] | ].
  destruct (truthy match logics p with
                   | Some l => l X
                   | None => JUndefined
                   end) eqn:Hn; [ eexists; split; [ reflexivity | exact Hn ] | ].
  destruct (match createLogic p with
            | Some f => f id
            | None => inr JUndefined
            end) as [e|v]; cbn.
  - eexists; split; [ reflexivity | exact I ].
  - destruct (truthy v) eqn:Hv; eexists; split; try reflexivity; exact Hv.
Qed.

(** Loading either completes, after at most one error line, or fails with
    the [TypeError] of its [catch] block. *)
Lemma loadLogics_shape required :
  exists t,
    (exists L, loadLogics required = (t, inr L)
               /\ (length (errors t) <= 1)%nat)
    \/ (exists k, loadLogics required = (t, inl (Raised (cannotReadMessage k)))).
Proof.
  destruct required as [[e|k]|p].
  - eexists. left. eexists. split; [ reflexivity | cbn; lia ].
  - eexists. right. exists k. reflexivity.
  - unfold loadLogics, lift. cbn [bind console_log].
    destruct (resolveLogic_shape p "BalancerV2FlashLoanLogic" "balancer-v2-flash-loan")
      as ([[e|k]|b] & -> & _);
      [ eexists; left; eexists; split; [ reflexivity | cbn; lia ]
      | eexists; right; exists k; reflexivity | ].
    destruct (resolveLogic_shape p "SushiswapV2SwapLogic" "sushiswap-v2-swap")
      as ([[e|k]|s] & -> & _);
      [ eexists; left; eexists; split; [ reflexivity | cbn; lia ]
      | eexists; right; exists k; reflexivity | ].
    destruct (resolveLogic_shape p "UniswapV3SwapLogic" "uniswap-v3-swap")
      as ([[e|k]|u] & -> & _);
      [ eexists; left; eexists; split; [ reflexivity | cbn; lia ]
      | eexists; right; exists k; reflexivity | ].
    destruct b; eexists; left; eexists; (split; [ reflexivity | cbn; lia ]).
Qed.

(** X1. Loading fails in one way only: when [require] or [createLogic]
    throws [null] or [undefined], the [catch] block's read of [e.message]
    throws a [TypeError], and nothing is written to [console.error].
    Otherwise loading completes, the flash-loan binding it leaves is a
    function and the two swap bindings are truthy; and when the loader
    wrote an error line, it wrote one only and all three bindings are
    [MockLogic], whatever classes had been found. *)
Theorem loadLogics_outcome required :
  (exists t,
     (exists L,
        loadLogics required = (t, inr L)
        /\ isFunction (BalancerV2FlashLoanLogic L) = true
        /\ truthy (SushiswapV2SwapLogic L) = true
        /\ truthy (UniswapV3SwapLogic L) = true
        /\ (errors t = []
            \/ exists e, errors t = [ loadFailure e ] /\ L = mockLogics))
     \/ (exists k,
           loadLogics required = (t, inl (Raised (cannotReadMessage k)))
           /\ errors t = []))
  /\ (forall k,
        loadLogics (inl (RaisedNullish k))
        = ([], inl (Raised (cannotReadMessage k)))).
Proof.
  split; [ | reflexivity ].
  destruct required as [[e|k]|p].
  { eexists. left. eexists. split; [ reflexivity | ]. repeat split.
    right. exists e. split; reflexivity. }
  { eexists. right. exists k. split; reflexivity. }
  unfold loadLogics, lift. cbn [bind console_log].
  destruct (resolveLogic_shape p "BalancerV2FlashLoanLogic" "balancer-v2-flash-loan")
    as ([[e|k]|b] & -> & Tb).
  { eexists. left. eexists. split; [ reflexivity | ]. repeat split.
    right. exists e. split; reflexivity. }
  { eexists. right. exists k. split; reflexivity. }
  destruct (resolveLogic_shape p "SushiswapV2SwapLogic" "sushiswap-v2-swap")
    as ([[e|k]|s] & -> & Ts).
  { eexists. left. eexists. split; [ reflexivity | ]. repeat split.
    right. exists e. split; reflexivity. }
  { eexists. right. exists k. split; reflexivity. }
  destruct (resolveLogic_shape p "UniswapV3SwapLogic" "uniswap-v3-swap")
    as ([[e|k]|u] & -> & Tu).
  { eexists. left. eexists. split; [ reflexivity | ]. repeat split.
    right. exists e. split; reflexivity. }
  { eexists. right. exists k. split; reflexivity. }
  destruct b as [|o|c]; [ discriminate Tb | | ].
  - eexists. left. eexists. split; [ reflexivity | ]. repeat split.
    right. eexists. split; reflexivity.
  - eexists. left. eexists. split; [ reflexivity | ]. repeat split; try assumption.
    left. reflexivity.
Qed.

(** X2. When the package exports the three classes as functions, the
    bindings are exactly those exports: [logics] and [createLogic] are not
    consulted (a [createLogic] that throws does no harm), nothing is
    written to [console.error] and no stub is bound. *)
Theorem exported_classes_are_bound p cb cs cu :
  prop p "BalancerV2FlashLoanLogic" = JFunction cb ->
  prop p "SushiswapV2SwapLogic" = JFunction cs ->
  prop p "UniswapV3SwapLogic" = JFunction cu ->
  loadLogics (inr p)
  = ([ exportsLine p ],
     inr (mkLogics (JFunction cb) (JFunction cs) (JFunction cu))).
Proof.
  intros Hb Hs Hu. unfold loadLogics, lift. cbn [bind console_log].
  rewrite !resolveLogic_direct by (rewrite ?Hb, ?Hs, ?Hu; reflexivity).
  rewrite Hb, Hs, Hu. reflexivity.
Qed.

Lemma exported_classes_are_bound_witness :
  prop completeModule "BalancerV2FlashLoanLogic"
  = JFunction (flashLoanLogicQuoting 100000000)
  /\ loadLogics (inr completeModule)
     = ([ exportsLine completeModule ],
        inr (mkLogics (JFunction (flashLoanLogicQuoting 100000000))
               (JFunction (swapLogicQuoting 40000000000000000))
               (JFunction (swapLogicQuoting 99000000)))).
Proof.
  split; [ reflexivity | ].
  exact (exported_classes_are_bound completeModule _ _ _ eq_refl eq_refl eq_refl).
Defined.

(** X3. When the package exports none of the classes directly and holds
    the three as functions under [logics], the bindings are those of
    [logics]; [createLogic] is not consulted. *)
Theorem namespaced_classes_are_bound p l cb cs cu :
  truthy (prop p "BalancerV2FlashLoanLogic") = false ->
  truthy (prop p "SushiswapV2SwapLogic") = false ->
  truthy (prop p "UniswapV3SwapLogic") = false ->
  logics p = Some l ->
  l "BalancerV2FlashLoanLogic" = JFunction cb ->
  l "SushiswapV2SwapLogic" = JFunction cs ->
  l "UniswapV3SwapLogic" = JFunction cu ->
  loadLogics (inr p)
  = ([ exportsLine p ],
     inr (mkLogics (JFunction cb) (JFunction cs) (JFunction cu))).
Proof.
  intros Hb Hs Hu Hl Lb Ls Lu. unfold loadLogics, lift. cbn [bind console_log].
  rewrite (resolveLogic_nested p l "BalancerV2FlashLoanLogic")
    by (rewrite ?Lb; auto).
  rewrite (resolveLogic_nested p l "SushiswapV2SwapLogic")
    by (rewrite ?Ls; auto).
  rewrite (resolveLogic_nested p l "UniswapV3SwapLogic")
    by (rewrite ?Lu; auto).
  rewrite Lb, Ls, Lu. reflexivity.
Qed.

Lemma namespaced_classes_are_bound_witness :
  logics namespacedModule = Some (prop completeModule)
  /\ loadLogics (inr namespacedModule)
     = ([ exportsLine namespacedModule ],
        inr (mkLogics (JFunction (flashLoanLogicQuoting 100000000))
               (JFunction (swapLogicQuoting 40000000000000000))
               (JFunction (swapLogicQuoting 99000000)))).
Proof.
  split; [ reflexivity | ].
  exact (namespaced_classes_are_bound namespacedModule _ _ _ _
           eq_refl eq_refl eq_refl eq_refl eq_refl eq_refl eq_refl).
Defined.

(** X4. A class the package exposes nowhere is replaced by [MockLogic]
    silently: when only the flash-loan class is exported, the loader binds
    it, binds the stub for both swaps, and writes nothing to
    [console.error]. *)
Theorem missing_swaps_are_mocked_silently p cb :
  prop p "BalancerV2FlashLoanLogic" = JFunction cb ->
  truthy (prop p "SushiswapV2SwapLogic") = false ->
  truthy (prop p "UniswapV3SwapLogic") = false ->
  logics p = None -> createLogic p = None ->
  loadLogics (inr p)
  = ([ exportsLine p ],
     inr (mkLogics (JFunction cb) (JFunction MockLogic) (JFunction MockLogic))).
Proof.
  intros Hb Hs Hu Hl Hc. unfold loadLogics, lift. cbn [bind console_log].
  rewrite resolveLogic_direct by (rewrite Hb; reflexivity).
  rewrite !resolveLogic_fallback by (rewrite ?Hl, ?Hc; auto).
  rewrite Hb. reflexivity.
Qed.

Lemma missing_swaps_are_mocked_silently_witness :
  prop (moduleWithFlashLoan 105000000) "BalancerV2FlashLoanLogic"
  = JFunction (flashLoanLogicQuoting 105000000)
  /\ loadLogics (inr (moduleWithFlashLoan 105000000))
     = ([ exportsLine (moduleWithFlashLoan 105000000) ],
        inr (mkLogics (JFunction (flashLoanLogicQuoting 105000000))
               (JFunction MockLogic) (JFunction MockLogic))).
Proof.
  split; [ reflexivity | ].
  exact (missing_swaps_are_mocked_silently (moduleWithFlashLoan 105000000) _
           eq_refl eq_refl eq_refl eq_refl eq_refl).
Defined.

(** X5. An exception of [createLogic] discards what was found.  When the
    flash-loan class is found neither as an export nor under [logics] and
    [createLogic] throws, then, even if both swap classes are exported:
    for a thrown [Error] all three bindings are [MockLogic] and its message
    is written to [console.error]; for a thrown [null] or [undefined] the
    [catch] block throws a [TypeError] at line 27 and loading fails, with
    nothing written to [console.error]. *)
Theorem createLogic_exception_mocks_all p f x :
  truthy (prop p "BalancerV2FlashLoanLogic") = false ->
  match logics p with
  | Some l => truthy (l "BalancerV2FlashLoanLogic") = false
  | None => True
  end ->
  createLogic p = Some f -> f "balancer-v2-flash-loan" = inl x ->
  loadLogics (inr p)
  = match x with
    | Raised e =>
        ([ exportsLine p; ConsoleError (loadFailure e) ], inr mockLogics)
    | RaisedNullish k =>
        ([ exportsLine p ], inl (Raised (cannotReadMessage k)))
    end.
Proof.
  intros Hb Hn Hc Hf. unfold loadLogics, lift. cbn [bind console_log].
  rewrite (resolveLogic_throws p f _ _ x Hb Hn Hc Hf).
  destruct x; reflexivity.
Qed.

Lemma createLogic_exception_mocks_all_witness :
  isFunction (prop throwingFactoryModule "SushiswapV2SwapLogic") = true
  /\ isFunction (prop throwingFactoryModule "UniswapV3SwapLogic") = true
  /\ loadLogics (inr throwingFactoryModule)
     = ([ exportsLine throwingFactoryModule;
          ConsoleError (loadFailure factoryFailure) ],
        inr mockLogics).
Proof.
  split; [ reflexivity | ]. split; [ reflexivity | ].
  exact (createLogic_exception_mocks_all throwingFactoryModule _
           (Raised factoryFailure) eq_refl I eq_refl eq_refl).
Defined.

(** X6. A flash-loan export that is not a function discards the swap
    classes too: when the export is an object and both swap classes are
    exported, line 25 throws, all three bindings are [MockLogic] and
    "BalancerV2FlashLoanLogic is not a function" is written to
    [console.error]. *)
Theorem bad_flash_loan_export_mocks_all p o :
  prop p "BalancerV2FlashLoanLogic" = JObject o ->
  truthy (prop p "SushiswapV2SwapLogic") = true ->
  truthy (prop p "UniswapV3SwapLogic") = true ->
  loadLogics (inr p)
  = ([ exportsLine p;
       ConsoleError
         (loadFailure (mkError "BalancerV2FlashLoanLogic is not a function")) ],
     inr mockLogics).
Proof.
  intros Hb Hs Hu. unfold loadLogics, lift. cbn [bind console_log].
  rewrite !resolveLogic_direct by (rewrite ?Hb; auto).
  rewrite Hb. reflexivity.
Qed.

Lemma bad_flash_loan_export_mocks_all_witness :
  prop badFlashLoanModule "BalancerV2FlashLoanLogic" = JObject []
  /\ isFunction (prop badFlashLoanModule "SushiswapV2SwapLogic") = true
  /\ loadLogics (inr badFlashLoanModule)
     = ([ exportsLine badFlashLoanModule;
          ConsoleError
            (loadFailure (mkError "BalancerV2FlashLoanLogic is not a function")) ],
        inr mockLogics).
Proof.
  split; [ reflexivity | ]. split; [ reflexivity | ].
  exact (bad_flash_loan_export_mocks_all badFlashLoanModule [] eq_refl eq_refl
           eq_refl).
Defined.

(** A swap-1 binding that is not a function stops the evaluation after the
    flash-loan step. *)
Lemma check_swap1_not_function L pr this cb fl b :
  BalancerV2FlashLoanLogic L = JFunction cb -> cb CHAIN_ID pr = inr fl ->
  getFlashLoanQuotation fl (flashLoanParamsOf this) = inr {| amount := b |} ->
  isFunction (SushiswapV2SwapLogic L) = false ->
  checkArbitrageOpportunity L pr this
  = ((step1 this b
      ++ [ ConsoleError
             (checkFailure (mkError "SushiswapV2SwapLogic is not a function")) ])%list,
     inr JUndefined).
Proof.
  intros HB Hcb Hfl HS.
  unfold checkArbitrageOpportunity, checkArbitrageOpportunity_try, instantiate,
    awaitFlashLoanQuotation, lift, throw.
  unfold flashLoanParamsOf in Hfl.
  rewrite HB, Hcb. cbn. rewrite Hfl. cbn.
  destruct (SushiswapV2SwapLogic L); try discriminate HS; reflexivity.
Qed.

(** X7. The loader checks the first class only.  A swap-1 export that is an
    object passes loading without an error line and without a stub; the run
    then asks the flash-loan quotation, fails on constructing the swap
    logic, and reports "SushiswapV2SwapLogic is not a function": no swap
    quotation is asked and no verdict on profit is printed. *)
Theorem bad_swap_export_breaks_run env p cb fl o b :
  prop p "BalancerV2FlashLoanLogic" = JFunction cb ->
  prop p "SushiswapV2SwapLogic" = JObject o ->
  truthy (prop p "UniswapV3SwapLogic") = true ->
  cb CHAIN_ID (mkProvider (PROVIDER_URL env)) = inr fl ->
  getFlashLoanQuotation fl (flashLoanParamsOf theBot) = inr {| amount := b |} ->
  main env (inr p)
  = (exportsLine p
       :: ConsoleLog "Starting Flash Loan Arbitrage Bot..."
       :: step1 theBot b
       ++ [ ConsoleError
              (checkFailure (mkError "SushiswapV2SwapLogic is not a function"));
            ConsoleLog "Bot run completed." ],
     inr JUndefined)%list.
Proof.
  intros Hb Hs Hu Hcb Hfl.
  assert (E : loadLogics (inr p)
              = ([ exportsLine p ],
                 inr (mkLogics (JFunction cb) (JObject o)
                        (prop p "UniswapV3SwapLogic")))).
  { unfold loadLogics, lift. cbn [bind console_log].
    rewrite !resolveLogic_direct by (rewrite ?Hb, ?Hs; auto).
    rewrite Hb, Hs. reflexivity. }
  unfold main, lift. rewrite E, newFlashLoanArbitrageBot_eq. fold theBot.
  cbn [bind]. rewrite run_eq.
  rewrite (check_swap1_not_function
             (mkLogics (JFunction cb) (JObject o) (prop p "UniswapV3SwapLogic"))
             _ theBot cb fl b eq_refl Hcb Hfl eq_refl).
  reflexivity.
Qed.

Lemma bad_swap_export_breaks_run_witness :
  prop badSwapModule "SushiswapV2SwapLogic" = JObject []
  /\ errors (fst (loadLogics (inr badSwapModule))) = []
  /\ errors (fst (main None (inr badSwapModule)))
     = [ checkFailure (mkError "SushiswapV2SwapLogic is not a function") ].
Proof.
  split; [ reflexivity | ]. split; [ reflexivity | ].
  rewrite (bad_swap_export_breaks_run None badSwapModule _ _ [] 100000000
             eq_refl eq_refl eq_refl eq_refl eq_refl).
  reflexivity.
Defined.

(** ** The evaluation *)

(** X8. Every call of [checkArbitrageOpportunity] that completes ends with
    exactly one of three verdicts: a profit line (and then neither "No
    profit detected." nor an error line), "No profit detected." (and no
    error line), or one [console.error] line carrying the message of the
    [Error] that was thrown (and then no verdict on profit).  The only
    other outcome is that the call fails with the [TypeError] of reading
    [.message] on a thrown [null] or [undefined]: then there is no verdict
    and no error line at all. *)
Theorem one_verdict L pr this :
  let r := checkArbitrageOpportunity L pr this in
  (snd r = inr JUndefined
   /\ profitable (fst r) = true /\ ~ In "No profit detected." (logged (fst r))
   /\ errors (fst r) = [])
  \/ (snd r = inr JUndefined
      /\ profitable (fst r) = false /\ In "No profit detected." (logged (fst r))
      /\ errors (fst r) = [])
  \/ (snd r = inr JUndefined
      /\ profitable (fst r) = false
      /\ ~ In "No profit detected." (logged (fst r))
      /\ exists err, errors (fst r) = [ checkFailure err ])
  \/ ((exists k, snd r = inl (Raised (cannotReadMessage k)))
      /\ profitable (fst r) = false
      /\ ~ In "No profit detected." (logged (fst r))
      /\ errors (fst r) = []).
Proof.
  destruct (check_shape L pr this)
    as [(b & e & u & _ & E)|[(t & err & A & _ & E)|(t & k & A & _ & E)]];
    rewrite E; cbn [fst snd].
  - unfold completedTrace, step4.
    destruct (u - flashLoanAmount this >? 0).
    + left. repeat split. intros H. cbn in H. in_cases H.
    + right. left. repeat split. cbn. do 3 right. left. reflexivity.
  - right. right. left. split; [ reflexivity | ].
    inversion A; cbn; (split; [ reflexivity | ]);
      (split; [ intros Hin; in_cases Hin | exists err; reflexivity ]).
  - right. right. right. split; [ exists k; reflexivity | ].
    inversion A; cbn; (split; [ reflexivity | ]);
      (split; [ intros Hin; in_cases Hin | reflexivity ]).
Qed.

(** X9. No retry and no call out of order: a call of
    [checkArbitrageOpportunity] asks at most three quotations, through the
    flash-loan, swap-1 and swap-2 bindings in that order, and every
    quotation but the last one asked was answered. *)
Theorem quotation_calls_in_order L pr this :
  let q := quotations (fst (checkArbitrageOpportunity L pr this)) in
  (length q <= 3)%nat
  /\ map viaOf q
     = firstn (length q)
         [ Some BalancerV2FlashLoan; Some SushiswapV2Swap; Some UniswapV3Swap ]
  /\ forallb answered (removelast q) = true.
Proof.
  destruct (check_shape L pr this)
    as [(b & e & u & _ & E)|[(t & err & A & _ & E)|(t & k & A & _ & E)]];
    rewrite E; cbn [fst].
  - rewrite quotations_completed. cbn. repeat split. lia.
  - inversion A; cbn; repeat split; lia.
  - inversion A; cbn; repeat split; lia.
Qed.

(** X10. Under the complete fallback the verdict depends on the configured
    loan only: whatever the bot borrows, the stub quotes the loan itself,
    0.04 ETH and 104 USDC, so the run reports a profit exactly when
    [flashLoanAmount] is below 104_000000 units. *)
Theorem mock_verdict_depends_on_loan_only pr this :
  checkArbitrageOpportunity mockLogics pr this
  = (completedTrace this (flashLoanAmount this) 40000000000000000 104000000,
     inr JUndefined)
  /\ (profitable (fst (checkArbitrageOpportunity mockLogics pr this)) = true
      <-> flashLoanAmount this < 104000000).
Proof.
  assert (E : checkArbitrageOpportunity mockLogics pr this
              = (completedTrace this (flashLoanAmount this) 40000000000000000
                   104000000,
                 inr JUndefined)).
  { unfold checkArbitrageOpportunity.
    rewrite (try_completes mockLogics pr this MockLogic MockLogic MockLogic
               mockInstance mockInstance mockInstance (flashLoanAmount this)
               40000000000000000 104000000);
      try reflexivity; apply mock_swap_quotation. }
  split; [ exact E | ].
  rewrite E. cbn [fst]. rewrite profitable_completed.
  destruct (Z.gtb_spec (104000000 - flashLoanAmount this) 0);
    split; intros; try lia; try discriminate; reflexivity.
Qed.

(** X11. A logic constructor that throws is handled like a rejected
    quotation.  When [new BalancerV2FlashLoanLogic(...)] throws, no
    quotation is asked; for a thrown [Error] the only event of the method
    is the [console.error] line with the message and the method completes,
    for a thrown [null] or [undefined] the method writes nothing and
    rejects with the [TypeError] of line 96. *)
Theorem constructor_exception_outcome L pr this cb x :
  BalancerV2FlashLoanLogic L = JFunction cb ->
  cb CHAIN_ID pr = inl x ->
  checkArbitrageOpportunity L pr this
  = match x with
    | Raised err => ([ ConsoleError (checkFailure err) ], inr JUndefined)
    | RaisedNullish k => ([], inl (Raised (cannotReadMessage k)))
    end.
Proof.
  intros HB Hcb.
  unfold checkArbitrageOpportunity, checkArbitrageOpportunity_try, instantiate,
    lift.
  rewrite HB, Hcb. destruct x; reflexivity.
Qed.

Lemma constructor_exception_outcome_witness :
  checkArbitrageOpportunity
    (mkLogics (JFunction (fun _ _ => inl (Raised quoteUnavailable)))
       (JFunction MockLogic) (JFunction MockLogic))
    defaultProvider theBot
  = ([ ConsoleError (checkFailure quoteUnavailable) ], inr JUndefined)
  /\ checkArbitrageOpportunity
       (mkLogics (JFunction (fun _ _ => inl (RaisedNullish Null)))
          (JFunction MockLogic) (JFunction MockLogic))
       defaultProvider theBot
     = ([], inl (Raised (cannotReadMessage Null))).
Proof.
  split.
  - exact (constructor_exception_outcome
             (mkLogics (JFunction (fun _ _ => inl (Raised quoteUnavailable)))
                (JFunction MockLogic) (JFunction MockLogic))
             defaultProvider theBot _ (Raised quoteUnavailable) eq_refl eq_refl).
  - exact (constructor_exception_outcome
             (mkLogics (JFunction (fun _ _ => inl (RaisedNullish Null)))
                (JFunction MockLogic) (JFunction MockLogic))
             defaultProvider theBot _ (RaisedNullish Null) eq_refl eq_refl).
Defined.

(** ** The whole script *)

(** From line 4 on the script either runs to its last line or fails with
    the [TypeError] of one of the two [catch] blocks. *)
Lemma main_outcome env required :
  (snd (main env required) = inr JUndefined
   /\ In (ConsoleLog "Starting Flash Loan Arbitrage Bot...")
        (fst (main env required))
   /\ exists pre,
        fst (main env required)
        = (pre ++ [ ConsoleLog "Bot run completed." ])%list)
  \/ (exists k, snd (main env required) = inl (Raised (cannotReadMessage k))).
Proof.
  unfold main, lift.
  destruct (loadLogics_shape required) as (t & [(L & E & Ht)|(k & E)]);
    rewrite E; [ | right; exists k; reflexivity ].
  rewrite newFlashLoanArbitrageBot_eq. cbn [bind app]. rewrite run_eq.
  set (pr := {| url := PROVIDER_URL env |}).
  set (bot := {| flashLoanAmount := 100000000 |}).
  destruct (check_shape L pr bot)
    as [(b & e & u & _ & Ec)|[(tc & err & A & _ & Ec)|(tc & k & A & _ & Ec)]];
    rewrite Ec; cbn [fst snd].
  - left. split; [ reflexivity | ].
    split; [ apply in_or_app; right; left; reflexivity | ].
    exists (t ++ ConsoleLog "Starting Flash Loan Arbitrage Bot..."
              :: completedTrace bot b e u)%list.
    exact (app_assoc t
             (ConsoleLog "Starting Flash Loan Arbitrage Bot..."
                :: completedTrace bot b e u)
             [ ConsoleLog "Bot run completed." ]).
  - left. split; [ reflexivity | ].
    split; [ apply in_or_app; right; left; reflexivity | ].
    exists (t ++ ConsoleLog "Starting Flash Loan Arbitrage Bot..."
              :: tc ++ [ ConsoleError (checkFailure err) ])%list.
    exact (app_assoc t
             (ConsoleLog "Starting Flash Loan Arbitrage Bot..."
                :: tc ++ [ ConsoleError (checkFailure err) ])
             [ ConsoleLog "Bot run completed." ]).
  - right. exists k. reflexivity.
Qed.

(** X12. The script fails in three ways only: line 1 throws, line 2
    throws, or one of the two [catch] blocks reads [.message] on a thrown
    [null] or [undefined] and the resulting [TypeError] goes unhandled.
    In every other case, whatever [require] and the logic classes do, the
    run prints "Starting Flash Loan Arbitrage Bot...", ends with "Bot run
    completed." and returns [undefined]. *)
Theorem script_outcomes dotenv ethers env required :
  match snd (script dotenv ethers env required) with
  | inr v =>
      v = JUndefined
      /\ In (ConsoleLog "Starting Flash Loan Arbitrage Bot...")
           (fst (script dotenv ethers env required))
      /\ exists pre,
           fst (script dotenv ethers env required)
           = (pre ++ [ ConsoleLog "Bot run completed." ])%list
  | inl x =>
      snd dotenv = inl x \/ snd ethers = inl x
      \/ exists k, x = Raised (cannotReadMessage k)
  end.
Proof.
  unfold script.
  destruct dotenv as (t1 & [x1|[]]); [ left; reflexivity | ].
  destruct ethers as (t2 & [x2|[]]); [ right; left; reflexivity | ].
  cbn [bind snd fst].
  destruct (main env required) as (t & r) eqn:Em.
  destruct (main_outcome env required) as [(R & S & pre & P)|(k & R)];
    rewrite Em in *; cbn [fst snd] in *; subst r.
  - split; [ reflexivity | ].
    split; [ apply in_or_app; right; apply in_or_app; right; exact S | ].
    exists (t1 ++ t2 ++ pre)%list. rewrite P, !app_assoc. reflexivity.
  - right. right. exists k. reflexivity.
Qed.

(** X13. When the flash-loan quotation hands back the amount requested (as
    the stub does), the verdict of a completed evaluation is the one on
    final minus borrowed: profitable exactly when the final amount exceeds
    the borrowed one, the printed profit being their difference. *)
Theorem echoed_loan_profit_is_final_minus_borrowed L pr this t v :
  checkArbitrageOpportunity_try L pr this = (t, inr v) ->
  borrowedAmount t = Some (flashLoanAmount this) ->
  exists b u,
    borrowedAmount t = Some b /\ finalAmount t = Some u
    /\ (profitable t = true <-> u - b > 0)
    /\ (profitable t = true ->
        In ("Profit: " ++ Ethers.formatUnits (u - b) 6 ++ " USDC") (logged t)).
Proof.
  intros H Hb. apply try_completed in H. destruct H as (_ & b & e & u & ->).
  destruct (amounts_completed this b e u) as (Eb & _ & Eu).
  rewrite Eb in Hb. injection Hb as ->.
  exists (flashLoanAmount this), u.
  rewrite profitable_completed, logged_completed.
  split; [ exact Eb | ]. split; [ exact Eu | ].
  destruct (Z.gtb_spec (u - flashLoanAmount this) 0); split;
    intros; try lia; try discriminate; try reflexivity.
  do 3 right. left. reflexivity.
Qed.

Lemma echoed_loan_profit_is_final_minus_borrowed_witness :
  checkArbitrageOpportunity_try mockLogics defaultProvider theBot
  = (completedTrace theBot 100000000 40000000000000000 104000000, inr JUndefined)
  /\ borrowedAmount (completedTrace theBot 100000000 40000000000000000 104000000)
     = Some (flashLoanAmount theBot)
  /\ exists b u,
       borrowedAmount (completedTrace theBot 100000000 40000000000000000
                         104000000) = Some b
       /\ finalAmount (completedTrace theBot 100000000 40000000000000000
                         104000000) = Some u
       /\ (profitable (completedTrace theBot 100000000 40000000000000000
                         104000000) = true <-> u - b > 0)
       /\ (profitable (completedTrace theBot 100000000 40000000000000000
                         104000000) = true ->
           In ("Profit: " ++ Ethers.formatUnits (u - b) 6 ++ " USDC")
             (logged (completedTrace theBot 100000000 40000000000000000
                        104000000))).
Proof.
  assert (H : checkArbitrageOpportunity_try mockLogics defaultProvider theBot
              = (completedTrace theBot 100000000 40000000000000000 104000000,
                 inr JUndefined)).
  { vm_compute. reflexivity. }
  split; [ exact H | ]. split; [ reflexivity | ].
  exact (echoed_loan_profit_is_final_minus_borrowed _ _ _ _ _ H eq_refl).
Defined.

(** X14. When the quotation of swap 1 is rejected with an [Error], the run
    asks no quotation of swap 2, reaches no final amount, prints no profit
    and no plan step, and still completes: [run] returns [undefined] after
    "Bot run completed.", its events being the flash-loan step, the
    rejected call and the [console.error] line. *)
Theorem swap1_failure_stops_run L pr this p err :
  In (SwapQuotation SushiswapV2Swap p (inl (Raised err))) (fst (run L pr this)) ->
  snd (run L pr this) = inr JUndefined
  /\ (forall p' a, ~ In (SwapQuotation UniswapV3Swap p' a) (fst (run L pr this)))
  /\ finalAmount (fst (run L pr this)) = None
  /\ profitable (fst (run L pr this)) = false
  /\ planSteps (fst (run L pr this)) = []
  /\ (forall v, snd (run L pr this) = inr v -> isArbitrageResult v = false)
  /\ exists b,
       fst (run L pr this)
       = (ConsoleLog "Starting Flash Loan Arbitrage Bot..."
            :: step1 this b
            ++ [ SwapQuotation SushiswapV2Swap (swap1ParamsOf b) (inl (Raised err));
                 ConsoleError ("Error checking arbitrage opportunity: "
                               ++ message err);
                 ConsoleLog "Bot run completed." ])%list.
Proof.
  rewrite run_eq.
  destruct (check_shape L pr this)
    as [(b & e & u & _ & E)|[(t & err' & A & _ & E)|(t & k & A & _ & E)]];
    rewrite E; cbn [fst snd].
  - intros H. exfalso. unfold completedTrace, step4 in H.
    destruct (u - flashLoanAmount this >? 0); cbn in H; in_cases H.
  - intros H. inversion A; subst; cbn in H; in_cases H.
    injection H as <- <-.
    split; [ reflexivity | ].
    split; [ intros p' a H'; cbn in H'; in_cases H' | ].
    repeat split.
    + intros v Hv. injection Hv as <-. reflexivity.
    + exists b. reflexivity.
  - intros H. exfalso. inversion A; subst; cbn in H; in_cases H.
Qed.

Lemma swap1_failure_stops_run_witness :
  In (SwapQuotation SushiswapV2Swap (swap1ParamsOf 100000000)
        (inl (Raised quoteUnavailable)))
    (fst (run (swap1Rejected (Raised quoteUnavailable)) defaultProvider theBot))
  /\ snd (run (swap1Rejected (Raised quoteUnavailable)) defaultProvider theBot)
     = inr JUndefined
  /\ finalAmount (fst (run (swap1Rejected (Raised quoteUnavailable))
                         defaultProvider theBot))
     = None.
Proof.
  assert (H : In (SwapQuotation SushiswapV2Swap (swap1ParamsOf 100000000)
                    (inl (Raised quoteUnavailable)))
                (fst (run (swap1Rejected (Raised quoteUnavailable))
                        defaultProvider theBot))).
  { vm_compute. right. right. right. left. reflexivity. }
  split; [ exact H | ].
  destruct (swap1_failure_stops_run _ _ _ _ _ H) as (R & _ & F & _).
  split; [ exact R | exact F ].
Defined.

(** X15. A quotation rejected with [null] or [undefined] makes the method
    itself reject: the [catch] block throws the [TypeError] of reading
    [.message], the rejected call is the last event of the method (no
    error line, no verdict on profit, no later call), and [run] rejects
    with the same error without writing "Bot run completed." *)
Theorem nullish_rejection_escapes L pr this ev k :
  In ev (fst (checkArbitrageOpportunity L pr this)) ->
  rejection ev = Some (RaisedNullish k) ->
  snd (checkArbitrageOpportunity L pr this) = inl (Raised (cannotReadMessage k))
  /\ (exists pre,
        fst (checkArbitrageOpportunity L pr this) = (pre ++ [ ev ])%list
        /\ Forall (fun ev' => rejection ev' = None) pre)
  /\ run L pr this
     = (ConsoleLog "Starting Flash Loan Arbitrage Bot..."
          :: fst (checkArbitrageOpportunity L pr this),
        inl (Raised (cannotReadMessage k))).
Proof.
  rewrite run_eq.
  destruct (check_shape L pr this)
    as [(b & e & u & _ & E)|[(t & err' & A & _ & E)|(t & k' & A & _ & E)]];
    rewrite E; cbn [fst snd].
  - intros H R. exfalso. unfold completedTrace, step4 in H.
    destruct (u - flashLoanAmount this >? 0); cbn in H; in_cases H;
      subst ev; discriminate R.
  - intros H R. exfalso.
    inversion A; subst; cbn in H; in_cases H; subst ev; discriminate R.
  - intros H R.
    inversion A; subst; cbn in H; in_cases H; subst ev; try discriminate R;
      injection R as <-; (split; [ reflexivity | ]);
      (split; [ | reflexivity ]).
    + exists []. split; [ reflexivity | constructor ].
    + exists (step1 this b). split; [ reflexivity | ].
      repeat constructor.
    + exists (step1 this b ++ step2 b e)%list. split; [ reflexivity | ].
      repeat constructor.
Qed.

Lemma nullish_rejection_escapes_witness :
  In (SwapQuotation SushiswapV2Swap (swap1ParamsOf 100000000)
        (inl (RaisedNullish Undefined)))
    (fst (checkArbitrageOpportunity (swap1Rejected (RaisedNullish Undefined))
            defaultProvider theBot))
  /\ snd (checkArbitrageOpportunity (swap1Rejected (RaisedNullish Undefined))
            defaultProvider theBot)
     = inl (Raised (cannotReadMessage Undefined)).
Proof.
  assert (H : In (SwapQuotation SushiswapV2Swap (swap1ParamsOf 100000000)
                    (inl (RaisedNullish Undefined)))
                (fst (checkArbitrageOpportunity
                        (swap1Rejected (RaisedNullish Undefined))
                        defaultProvider theBot))).
  { vm_compute. right. right. left. reflexivity. }
  split; [ exact H | ].
  exact (proj1 (nullish_rejection_escapes _ _ _ _ Undefined H eq_refl)).
Defined.
